(** * EcoFinance Pro

    A shallow embedding of the computations of [EcoFinance_pro.py]: the
    keyword-routed answer of [consulta_ia], the insertion performed by the
    capture form (tab 1), the investment simulation (tab 4) and the
    executive report (tab 5).

    Numbers are the ones Python has: unbounded integers ([Z]) and IEEE 754
    binary64 floats (Rocq's primitive [float]).  Text produced by an
    f-string is kept as a template: the literal pieces and, for every
    replacement field, the value it interpolates together with its format
    specification; runs of layout whitespace inside the literal pieces
    are written as one space.  Page layout, charts and the SQLite
    connection are not modelled. *)

From Stdlib Require Import ZArith List String Ascii Bool Lia Floats Permutation.
From Stdlib Require Import Sorted.
Import ListNotations.

Local Open Scope string_scope.

(** ** Python values *)

Module Py.

Inductive excepcion : Type :=
| ValueError
| TypeError
| KeyError
| ZeroDivisionError.

(** An expression either yields a value or raises. *)
Inductive resultado (A : Type) : Type :=
| Ok (a : A)
| Raise (e : excepcion).
Arguments Ok {A} a.
Arguments Raise {A} e.

Definition bind {A B : Type} (r : resultado A) (k : A -> resultado B)
  : resultado B :=
  match r with
  | Ok a => k a
  | Raise e => Raise e
  end.

Fixpoint mapM {A B : Type} (f : A -> resultado B) (l : list A)
  : resultado (list B) :=
  match l with
  | [] => Ok []
  | a :: l' =>
      bind (f a) (fun b => bind (mapM f l') (fun bs => Ok (b :: bs)))
  end.

(** [int] and [float].  A [Flotante] that reaches a division is always a
    [numpy.float64] returned by a pandas reduction. *)
Inductive numero : Type :=
| Entero (n : Z)
| Flotante (x : float).

(** [float(n)]: the binary64 nearest to [n], ties to even.  (Beyond the
    largest float Python raises [OverflowError] where this yields an
    infinity; the widgets keep every [int] of this program below 2^53.) *)
Definition float_of_Z (n : Z) : float :=
  SF2Prim (binary_normalize prec emax n 0 false).

Definition a_float (a : numero) : float :=
  match a with
  | Entero n => float_of_Z n
  | Flotante x => x
  end.

(** [a * b] *)
Definition mul (a b : numero) : numero :=
  match a, b with
  | Entero m, Entero n => Entero (m * n)
  | _, _ => Flotante (a_float a * a_float b)%float
  end.

(** [a / b]: between two [int]s a zero divisor raises (and the only
    other [int] division of the program is 0/30); a [numpy.float64]
    operand makes it an IEEE division, which yields [inf] or [nan] on a
    zero divisor and does not raise. *)
Definition truediv (a b : numero) : resultado numero :=
  match a, b with
  | Entero _, Entero 0 => Raise ZeroDivisionError
  | _, _ => Ok (Flotante (a_float a / a_float b)%float)
  end.

(** [a < b] *)
Definition lt (a b : numero) : bool :=
  match a, b with
  | Entero m, Entero n => (m <? n)%Z
  | _, _ => (a_float a <? a_float b)%float
  end.

(** [str.lower] on the ASCII letters; a [str] is its UTF-8 bytes.
    Python also lowers letters outside ASCII, which neither makes nor
    breaks an occurrence of the two ASCII words [consulta_ia] looks
    for. *)
Definition lower_ascii (c : ascii) : ascii :=
  let n := nat_of_ascii c in
  if ((65 <=? n) && (n <=? 90))%nat then ascii_of_nat (n + 32) else c.

Fixpoint lower (s : string) : string :=
  match s with
  | EmptyString => EmptyString
  | String c s' => String (lower_ascii c) (lower s')
  end.

(** [sub in s] *)
Fixpoint contiene (sub s : string) : bool :=
  if String.prefix sub s then true
  else match s with
       | EmptyString => false
       | String _ s' => contiene sub s'
       end.

(** [d[k]] on a [dict] with string keys. *)
Fixpoint getitem (d : list (string * string)) (k : string)
  : resultado string :=
  match d with
  | [] => Raise KeyError
  | (k', v) :: d' => if String.eqb k' k then Ok v else getitem d' k
  end.

End Py.

Import Py.

Notation "x <- c ;; k" := (Py.bind c (fun x => k))
  (at level 61, c at next level, right associativity).

(** ** The table [operaciones_mineras] and the pandas operations used on it *)

(** The four options of the form's [selectbox], in its order. *)
Inductive proceso : Type :=
| Extraccion
| Procesamiento
| Transporte
| Relaves.

Definition nombre (p : proceso) : string :=
  match p with
  | Extraccion => "Extracción"
  | Procesamiento => "Procesamiento"
  | Transporte => "Transporte"
  | Relaves => "Relaves"
  end.

Definition proceso_eqb (p q : proceso) : bool :=
  match p, q with
  | Extraccion, Extraccion
  | Procesamiento, Procesamiento
  | Transporte, Transporte
  | Relaves, Relaves => true
  | _, _ => false
  end.

(** A calendar date as year, month, day. *)
Definition fecha_t : Type := (Z * Z * Z)%type.

(** One row of [operaciones_mineras]. *)
Record fila : Type := mkFila {
  id : Z;
  fecha : fecha_t;
  proceso_de : proceso;
  material : string;
  agua_m3 : float;
  energia_kwh : float;
  co2_ton : float;
  residuos_ton : float;
  produccion_ton : float;
  ingresos_soles : float;
  gastos_soles : float;
  inversion_ambiental_soles : float
}.

(** [pd.read_sql("SELECT * FROM operaciones_mineras", conn)]: the rows in
    insertion order.  A non-empty frame has [float64] numeric columns; the
    frame of an empty table has untyped ([object]) columns. *)
Definition DataFrame : Type := list fila.

Definition columna : Type := fila -> float.

(** A [Series] indexed by process. *)
Definition Series : Type := list (proceso * float).

(** The rows of process [p], in frame order. *)
Definition grupo (p : proceso) (df : DataFrame) : DataFrame :=
  filter (fun r => proceso_eqb (proceso_de r) p) df.

Module Pandas.

(** [skipna=True]: a missing value counts as 0.0 in a sum. *)
Definition sin_nan (x : float) : float :=
  if PrimFloat.is_nan x then 0%float else x.

(** numpy's [pairwise_sum] with eight accumulators [r0 .. r7]: while
    eight more values are left each accumulator takes one; then the
    accumulators are added as a tree and the values that remain are
    added to the result one by one. *)
Fixpoint bloques8 (r0 r1 r2 r3 r4 r5 r6 r7 : float) (a : list float)
  : float :=
  match a with
  | a0 :: a1 :: a2 :: a3 :: a4 :: a5 :: a6 :: a7 :: a' =>
      bloques8 (r0 + a0) (r1 + a1) (r2 + a2) (r3 + a3)
               (r4 + a4) (r5 + a5) (r6 + a6) (r7 + a7) a'
  | resto =>
      fold_left PrimFloat.add resto
        (((r0 + r1) + (r2 + r3)) + ((r4 + r5) + (r6 + r7)))
  end%float.

(** [pairwise_sum] on at most 128 values: fewer than eight are added
    left to right from 0.0, otherwise the first eight start the
    accumulators. *)
Definition bloque (a : list float) : float :=
  match a with
  | a0 :: a1 :: a2 :: a3 :: a4 :: a5 :: a6 :: a7 :: a' =>
      bloques8 a0 a1 a2 a3 a4 a5 a6 a7 a'
  | _ => fold_left PrimFloat.add a 0%float
  end.

(** [pairwise_sum]: above 128 values the array is split at half its
    length, rounded down to a multiple of 8, and the two sums are added.
    [fuel] bounds the depth of the splitting; the length of the array is
    always enough. *)
Fixpoint pairwise_sum (fuel : nat) (a : list float) : float :=
  let n := List.length a in
  if (n <=? 128)%nat then bloque a
  else
    match fuel with
    | O => bloque a
    | S fuel' =>
        let n2 := (n / 2 - (n / 2) mod 8)%nat in
        (pairwise_sum fuel' (firstn n2 a)
         + pairwise_sum fuel' (skipn n2 a))%float
    end.

(** [numpy.add.reduce] over a [float64] array: the pairwise sum added to
    the initial 0.0. *)
Definition np_sum (a : list float) : float :=
  (0 + pairwise_sum (List.length a) a)%float.

(** [Series.sum()] on [float64] values: missing values skipped, the rest
    summed by numpy. *)
Definition suma_f (xs : list float) : float :=
  np_sum (map sin_nan xs).

(** The sum of one group in [groupby(...).sum()]: Kahan summation over
    the values that are not missing; a compensation that becomes NaN is
    reset to 0. *)
Fixpoint kahan (sumx comp : float) (vals : list float) : float :=
  match vals with
  | [] => sumx
  | v :: vals' =>
      if PrimFloat.is_nan v then kahan sumx comp vals'
      else
        let y := (v - comp)%float in
        let t := (sumx + y)%float in
        let c := (t - sumx - y)%float in
        kahan t (if PrimFloat.is_nan c then 0%float else c) vals'
  end.

Definition group_sum (vals : list float) : float :=
  kahan 0%float 0%float vals.

(** [df[c].sum()]: a [float64] on a typed column, the integer 0 on the
    untyped column of an empty frame. *)
Definition suma (c : columna) (df : DataFrame) : numero :=
  match df with
  | [] => Entero 0
  | _ :: _ => Flotante (suma_f (map c df))
  end.

(** [df[c].mean()]: the sum over the number of values that are not
    missing; [nan] when there is none, so also when there is no row. *)
Definition mean (c : columna) (df : DataFrame) : float :=
  let n := List.length
             (filter (fun x => negb (PrimFloat.is_nan x)) (map c df)) in
  match n with
  | O => PrimFloat.nan
  | S _ => (suma_f (map c df) / float_of_Z (Z.of_nat n))%float
  end.

(** The group keys as [groupby] sorts them (by name). *)
Definition claves : list proceso :=
  [Extraccion; Procesamiento; Relaves; Transporte].

(** [df.groupby('proceso')]: one group per process that has a row, keys
    sorted, rows of a group in frame order. *)
Definition groupby (df : DataFrame) : list (proceso * DataFrame) :=
  filter (fun g => negb (Nat.eqb (List.length (snd g)) 0))
    (map (fun p => (p, grupo p df)) claves).

(** [df.groupby('proceso')[c].sum()] *)
Definition groupby_sum (c : columna) (df : DataFrame) : Series :=
  map (fun g => (fst g, group_sum (map c (snd g)))) (groupby df).

(** Descending insertion: [e] goes before the first entry that is not
    greater than it. *)
Fixpoint insertar (e : proceso * float) (s : Series) : Series :=
  match s with
  | [] => [e]
  | e' :: s' =>
      if (snd e <? snd e')%float then e' :: insertar e s'
      else e :: e' :: s'
  end.

Fixpoint ordenar (s : Series) : Series :=
  match s with
  | [] => []
  | e :: s' => insertar e (ordenar s')
  end.

Definition es_nan (e : proceso * float) : bool := PrimFloat.is_nan (snd e).
Definition no_nan (e : proceso * float) : bool := negb (es_nan e).

(** [s.sort_values(ascending=False)]: descending, equal values in their
    original order, [nan] entries last. *)
Definition sort_values_desc (s : Series) : Series :=
  (ordenar (filter no_nan s) ++ filter es_nan s)%list.

Fixpoint argmax (mejor : proceso * float) (s : Series) : proceso * float :=
  match s with
  | [] => mejor
  | e :: s' =>
      if (snd mejor <? snd e)%float then argmax e s' else argmax mejor s'
  end.

(** [s.idxmax()]: label of the first largest value, [nan] skipped;
    raises when there is nothing to choose from. *)
Definition idxmax (s : Series) : resultado proceso :=
  match filter no_nan s with
  | [] => Raise ValueError
  | e :: s' => Ok (fst (argmax e s'))
  end.

(** [s.max()]: largest value, [nan] skipped; [nan] when none is left. *)
Definition max (s : Series) : float :=
  match filter no_nan s with
  | [] => PrimFloat.nan
  | e :: s' => snd (argmax e s')
  end.

End Pandas.

(** ** f-strings *)

(** A value interpolated into an f-string: a plain [str], a number, a
    [str] that an f-string built ([VPlantilla]), or a bound method of a
    [Series] that was not called ([VMetodo m s] is [s.m]). *)
Inductive valor : Type :=
| VStr (s : string)
| VNum (n : numero)
| VPlantilla (t : list pieza)
| VMetodo (metodo : string) (self : Series)
with pieza : Type :=
| Texto (s : string)
| Hueco (v : valor) (formato : string).

Definition fstring : Type := list pieza.

(** The values interpolated by a template, left to right. *)
Fixpoint huecos (t : fstring) : list valor :=
  match t with
  | [] => []
  | Texto _ :: t' => huecos t'
  | Hueco v _ :: t' => v :: huecos t'
  end.

(** ** Legal data and the keyword-routed answer *)

Definition normas_peru : list (string * string) :=
  [ ("Ley General del Ambiente", "Ley N° 28611");
    ("Límite CO₂ Minería", "50 ton/día (DS N° 003-2014-MINAM)");
    ("Agua", "Límite 5000 m3/día (Ley de Recursos Hídricos)");
    ("Multas", "Hasta 10,000 UIT por incumplimiento") ].

(** [df[c].sum()/30] *)
Definition tasa_diaria (c : columna) (df : DataFrame) : resultado numero :=
  truediv (Pandas.suma c df) (Entero 30).

(** The lambda of line 78 on one group [x]. *)
Definition razon_produccion_agua (x : DataFrame) : resultado numero :=
  truediv (Pandas.suma produccion_ton x) (Pandas.suma agua_m3 x).

(** Lines 77-79:
    [df.groupby('proceso').apply(lambda x: ...).sort_values(ascending=False)].
    On a frame without rows [apply] hands back an empty frame, not a
    Series, and [sort_values] without [by] raises. *)
Definition eficiencia_hidrica (df : DataFrame) : resultado Series :=
  match df with
  | [] => Raise TypeError
  | _ :: _ =>
      s <- mapM (fun g => r <- razon_produccion_agua (snd g) ;;
                          Ok (fst g, a_float r))
             (Pandas.groupby df) ;;
      Ok (Pandas.sort_values_desc s)
  end.

(** Lines 77-86: the analysis of the water branch. *)
Definition analisis_agua (df : DataFrame) : resultado valor :=
  eficiencia <- eficiencia_hidrica df ;;
  let mejor_proceso := VMetodo "idxmax" eficiencia in
  norma <- getitem normas_peru "Agua" ;;
  uso <- tasa_diaria agua_m3 df ;;
  Ok (VPlantilla
        [ Texto "🔍 Análisis de Eficiencia Hídrica: - Proceso más eficiente: ";
          Hueco mejor_proceso "";
          Texto " (";
          Hueco (VNum (Flotante (Pandas.max eficiencia))) ".2f";
          Texto " ton/m3) - Recomendación: Implementar sistema de recirculación (Inversión: $1.2M, ROI: 3 años) - Normativa Perú: Límite ";
          Hueco (VStr norma) "";
          Texto " - Cerro Verde usa ";
          Hueco (VNum uso) ".0f";
          Texto " m3/día" ]).

(** Line 93: ['✅' if df['co2_ton'].sum()/30 < 50 else '❌']. *)
Definition cumplimiento_co2 (df : DataFrame) : resultado string :=
  diario <- tasa_diaria co2_ton df ;;
  Ok (if lt diario (Entero 50) then "✅" else "❌").

(** Lines 89-94: the analysis of the emissions branch. *)
Definition analisis_emisiones (df : DataFrame) : resultado valor :=
  let total := Pandas.suma co2_ton df in
  clave <- Pandas.idxmax (Pandas.groupby_sum co2_ton df) ;;
  cumple <- cumplimiento_co2 df ;;
  norma <- getitem normas_peru "Límite CO₂ Minería" ;;
  Ok (VPlantilla
        [ Texto "📉 Análisis de Emisiones: - Total CO₂: ";
          Hueco (VNum total) ".1f";
          Texto " ton/mes - Proceso clave: ";
          Hueco (VStr (nombre clave)) "";
          Texto " - Cumplimiento: ";
          Hueco (VStr cumple) "";
          Texto " vs ";
          Hueco (VStr norma) "" ]).

(** Lines 96-109: the page returned around the analysis. *)
Definition respuesta (pregunta : string) (analisis : valor)
  : resultado fstring :=
  ley <- getitem normas_peru "Ley General del Ambiente" ;;
  limites <- getitem normas_peru "Límite CO₂ Minería" ;;
  multas <- getitem normas_peru "Multas" ;;
  Ok [ Texto "<div class='ia-response'><h3 class='header'>🔎 Respuesta IA - Especializada en Minería Perú</h3><p><strong>Consulta:</strong> ";
       Hueco (VStr pregunta) "";
       Texto "</p>";
       Hueco analisis "";
       Texto "<hr><h4 class='header'>📚 Base Legal Perú:</h4><ul><li>";
       Hueco (VStr ley) "";
       Texto "</li><li>Límites: ";
       Hueco (VStr limites) "";
       Texto "</li><li>Multas: ";
       Hueco (VStr multas) "";
       Texto "</li></ul></div>" ].

(** [consulta_ia(pregunta, df)]; its local [conocimiento_peru] is never
    read. *)
Definition consulta_ia (pregunta : string) (df : DataFrame)
  : resultado fstring :=
  analisis <-
    (if contiene "agua" (lower pregunta) then analisis_agua df
     else if contiene "emision" (lower pregunta) then analisis_emisiones df
     else Ok (VStr "")) ;;
  respuesta pregunta analisis.

(** ** Tab 1: the capture form *)

(** What the widgets of [form_mineria] hold when the form is submitted. *)
Record formulario : Type := mkFormulario {
  f_fecha : fecha_t;
  f_proceso : proceso;
  f_agua : float;
  f_energia : float;
  f_co2 : float;
  f_produccion : float
}.

(** The key SQLite gives to a row inserted with a [NULL] id. *)
Definition siguiente_id (t : list fila) : Z :=
  1 + fold_right Z.max 0%Z (map id t).

(** The row bound by the [INSERT] of lines 132-138. *)
Definition fila_de (k : Z) (f : formulario) : fila :=
  mkFila k (f_fecha f) (f_proceso f) "Cobre"
    (f_agua f) (f_energia f) (f_co2 f)
    (a_float (Entero 0))
    (f_produccion f)
    (a_float (mul (Flotante (f_produccion f)) (Entero 5000)))
    (a_float (mul (Flotante (f_produccion f)) (Entero 3500)))
    (a_float (mul (Flotante (f_co2 f)) (Entero 40))).

Definition guardar_datos (f : formulario) (t : list fila) : list fila :=
  (t ++ [fila_de (siguiente_id t) f])%list.

(** The table is only ever written by the form: the program has no
    [UPDATE] or [DELETE]. *)
Inductive paso : list fila -> list fila -> Prop :=
| paso_guardar (f : formulario) (t : list fila) : paso t (guardar_datos f t).

Inductive alcanzable : list fila -> Prop :=
| tabla_creada : alcanzable []
| tras_paso (t t' : list fila) : alcanzable t -> paso t t' -> alcanzable t'.

(** ** Tab 4: the simulation *)

(** 0.2 as Python reads it: the nearest binary64. *)
Definition cero_punto_dos : float := 0x1.999999999999ap-3%float.

(** The dict [resultados] of lines 167-172, keys in insertion order.
    [inversion] and [plazo] are the [int]s of the two widgets; [tipo] is
    the selected technology. *)
Definition simular (inversion plazo : Z) (tipo : string)
  : list (string * fstring) :=
  [ ("Reducción CO₂", [Texto "15-25%"]);
    ("Ahorro Anual",
      [ Texto "S/. ";
        Hueco (VNum (mul (Entero inversion) (Flotante cero_punto_dos))) ",.0f" ]);
    ("ROI", [Hueco (VNum (Entero plazo)) ""; Texto " años"]);
    ("Cumplimiento Legal", [Texto "✅ 100%"]) ].

(** [resultados[k]] *)
Fixpoint campo (k : string) (d : list (string * fstring)) : option fstring :=
  match d with
  | [] => None
  | (k', v) :: d' => if String.eqb k' k then Some v else campo k d'
  end.

(** ** Tab 5: the executive report *)

(** Line 189: [df['agua_m3'].sum()/df['produccion_ton'].sum()]. *)
Definition intensidad_hidrica (df : DataFrame) : resultado numero :=
  truediv (Pandas.suma agua_m3 df) (Pandas.suma produccion_ton df).

(** Line 190: [df['co2_ton'].sum()/df['ingresos_soles'].sum()]. *)
Definition emisiones_por_sol (df : DataFrame) : resultado numero :=
  truediv (Pandas.suma co2_ton df) (Pandas.suma ingresos_soles df).

(** Line 193: ['mejorado' if df['energia_kwh'].mean() < 100 else 'empeorado']. *)
Definition tendencia (df : DataFrame) : string :=
  if lt (Flotante (Pandas.mean energia_kwh df)) (Entero 100)
  then "mejorado" else "empeorado".

(** Line 197: ['Dentro' if df['co2_ton'].mean() < 1.5 else 'Fuera']. *)
Definition niveles_co2 (df : DataFrame) : string :=
  if lt (Flotante (Pandas.mean co2_ton df)) (Flotante 1.5%float)
  then "Dentro" else "Fuera".

(** The markdown of lines 184-199; [ahora] is the month and year that
    [datetime.now().strftime('%B %Y')] prints. *)
Definition generar_reporte (ahora : string) (df : DataFrame)
  : resultado fstring :=
  let produccion := Pandas.suma produccion_ton df in
  intensidad <- intensidad_hidrica df ;;
  emisiones <- emisiones_por_sol df ;;
  agua_diaria <- tasa_diaria agua_m3 df ;;
  norma <- getitem normas_peru "Agua" ;;
  Ok [ Texto "## Análisis Integral - ";
       Hueco (VStr ahora) "";
       Texto " **📌 Hallazgos Clave:** - Producción total: ";
       Hueco (VNum produccion) ",.0f";
       Texto " ton - Intensidad hídrica: ";
       Hueco (VNum intensidad) ".1f";
       Texto " m3/ton - Emisiones por S/. ingresado: ";
       Hueco (VNum emisiones) ".4f";
       Texto " ton/S/. **📈 Tendencia Ambiental:** La eficiencia energética ha ";
       Hueco (VStr (tendencia df)) "";
       Texto " en comparación con el trimestre anterior. **⚖️ Cumplimiento Legal:** - Niveles de CO₂: ";
       Hueco (VStr (niveles_co2 df)) "";
       Texto " de límites legales - Agua utilizada: ";
       Hueco (VNum agua_diaria) ",.0f";
       Texto " m3/día vs Límite ";
       Hueco (VStr norma) "" ].

(** ** Sample data used to exercise the definitions *)

Definition fecha_ejemplo : fecha_t := (2024, 5, 1)%Z.

Definition captura (p : proceso) (agua energia co2 produccion : float)
  : formulario :=
  mkFormulario fecha_ejemplo p agua energia co2 produccion.

(** Three captures: Extracción (water 100, production 50), Procesamiento
    (50, 60) and Transporte (10, 5). *)
Definition df_tres : DataFrame :=
  guardar_datos (captura Transporte 10 0 0 5)
    (guardar_datos (captura Procesamiento 50 0 0 60)
       (guardar_datos (captura Extraccion 100 0 0 50) [])).

(** One capture with production and no water. *)
Definition df_sin_agua : DataFrame :=
  guardar_datos (captura Relaves 0 0 0 5) [].

(** One capture with water and no production. *)
Definition df_sin_produccion : DataFrame :=
  guardar_datos (captura Relaves 100 150 0 0) [].

(** One capture whose CO2 is exactly 30 days of the daily limit. *)
Definition df_co2_en_limite : DataFrame :=
  guardar_datos (captura Procesamiento 100 150 1500 10) [].

(** production sum / water sum of a set of rows, as floats. *)
Definition razon_f (x : DataFrame) : float :=
  (Pandas.suma_f (map produccion_ton x) / Pandas.suma_f (map agua_m3 x))%float.

(** The ratio of every group, in group order (before sorting). *)
Definition razones (df : DataFrame) : Series :=
  map (fun g => (fst g, razon_f (snd g))) (Pandas.groupby df).

(** [sub] occurs in [s] as a contiguous piece. *)
Definition subcadena (sub s : string) : Prop :=
  exists pre post : string, s = pre ++ sub ++ post.

(** One capture with energy 150 kWh. *)
Definition df_energia_150 : DataFrame :=
  guardar_datos (captura Extraccion 100 150 1 10) [].

(** The derived columns of a row agree with its production and CO2. *)
Definition derivada (r : fila) : Prop :=
  ingresos_soles r = (produccion_ton r * 5000)%float /\
  gastos_soles r = (produccion_ton r * 3500)%float /\
  inversion_ambiental_soles r = (co2_ton r * 40)%float /\
  residuos_ton r = 0%float.

(** ** Repeated captures and the bounds of the form's widgets *)

(** The table after the forms [fs] have been submitted one after the
    other. *)
Definition guardar_todos (fs : list formulario) (t : list fila) : list fila :=
  fold_left (fun t' f => guardar_datos f t') fs t.

(** [0 <= x]; false on a NaN. *)
Definition no_negativo (x : float) : bool := (0 <=? x)%float.

(** The four [number_input] widgets have [min_value=0.0]. *)
Definition formulario_valido (f : formulario) : Prop :=
  no_negativo (f_agua f) = true /\
  no_negativo (f_energia f) = true /\
  no_negativo (f_co2 f) = true /\
  no_negativo (f_produccion f) = true.

(** Every numeric column of the row is a number not below 0. *)
Definition fila_no_negativa (r : fila) : Prop :=
  no_negativo (agua_m3 r) = true /\
  no_negativo (energia_kwh r) = true /\
  no_negativo (co2_ton r) = true /\
  no_negativo (residuos_ton r) = true /\
  no_negativo (produccion_ton r) = true /\
  no_negativo (ingresos_soles r) = true /\
  no_negativo (gastos_soles r) = true /\
  no_negativo (inversion_ambiental_soles r) = true.

(** [a] is not smaller than [b]. *)
Definition no_menor (a b : proceso * float) : Prop :=
  (snd a <? snd b)%float = false.


(** Descending with the missing values last: a part without NaN in
    which no entry is smaller than any entry after it, followed by the
    NaN entries. *)
Definition ordenada_desc (s : Series) : Prop :=
  exists numeros nans : Series,
    s = (numeros ++ nans)%list /\
    Forall (fun e => Pandas.no_nan e = true) numeros /\
    StronglySorted no_menor numeros /\
    Forall (fun e => Pandas.es_nan e = true) nans.

(** Three captures of one process whose CO2 values overflow when
    added: 1e308, 1e308 and 0. *)
Definition df_desborde : DataFrame :=
  guardar_datos (captura Extraccion 10 0 0 5)
    (guardar_datos (captura Extraccion 10 0 0x1.1ccf385ebc8ap+1023 5)
       (guardar_datos (captura Extraccion 10 0 0x1.1ccf385ebc8ap+1023 5) [])).

(** Eight captures with CO2 112.8, 251.6, 218.2, 160.3, 106.2, 273.1,
    194.5 and 183.3: 1500 in all. *)
Definition df_ocho : DataFrame :=
  guardar_todos
    [ captura Procesamiento 100 100 0x1.c333333333333p+6 10;
      captura Procesamiento 100 100 0x1.f733333333333p+7 10;
      captura Procesamiento 100 100 0x1.b466666666666p+7 10;
      captura Procesamiento 100 100 0x1.409999999999ap+7 10;
      captura Procesamiento 100 100 0x1.a8ccccccccccdp+6 10;
      captura Procesamiento 100 100 0x1.111999999999ap+8 10;
      captura Procesamiento 100 100 0x1.85p+7 10;
      captura Procesamiento 100 100 0x1.6e9999999999ap+7 10 ]
    [].

(** Eight captures with energy 58.9, 77.2, 128.2, 136.7, 86.1, 128.6,
    127.5 and 56.8: 800 in all. *)
Definition df_energia_ocho : DataFrame :=
  guardar_todos
    [ captura Extraccion 100 0x1.d733333333333p+5 1 10;
      captura Extraccion 100 0x1.34ccccccccccdp+6 1 10;
      captura Extraccion 100 0x1.0066666666666p+7 1 10;
      captura Extraccion 100 0x1.1166666666666p+7 1 10;
      captura Extraccion 100 0x1.5866666666666p+6 1 10;
      captura Extraccion 100 0x1.0133333333333p+7 1 10;
      captura Extraccion 100 0x1.fep+6 1 10;
      captura Extraccion 100 0x1.c666666666666p+5 1 10 ]
    [].

(** Three captures with CO2 2, 7 and 7. *)
Definition df_emisiones : DataFrame :=
  guardar_datos (captura Transporte 10 0 7 5)
    (guardar_datos (captura Procesamiento 50 0 7 60)
       (guardar_datos (captura Extraccion 100 0 2 50) [])).

(** The sign of a float that is not a NaN. *)
Definition signo_SF (sx : bool) (f : spec_float) : Prop :=
  match f with
  | S754_nan => False
  | S754_zero s | S754_infinity s | S754_finite s _ _ => s = sx
  end.

(** A zero, a positive number or the positive infinity. *)
Definition no_neg_SF (f : spec_float) : Prop :=
  match f with
  | S754_zero _ | S754_infinity false | S754_finite false _ _ => True
  | _ => False
  end.

(** * Properties *)

(** ** Floats *)

Section Flotantes.

Local Open Scope float_scope.

Lemma SFcompare_antisym (x y : spec_float) :
  SFcompare y x = option_map CompOpp (SFcompare x y).
Proof.
  destruct x as [sx|sx| |sx mx ex], y as [sy|sy| |sy my ey]; cbn;
    try reflexivity;
    try (destruct sx; reflexivity);
    try (destruct sy; reflexivity);
    try (destruct sx, sy; reflexivity).
  destruct sx, sy; try reflexivity;
    rewrite (Z.compare_antisym ex ey);
    destruct (ex ?= ey)%Z; cbn; try reflexivity;
    change (Pos.compare_cont Eq my mx)
      with (Pos.compare_cont (CompOpp Eq) my mx);
    rewrite <- (Pos.compare_cont_antisym mx my Eq);
    destruct (Pos.compare_cont Eq mx my); reflexivity.
Qed.

Lemma ltb_asym (x y : float) : (x <? y) = true -> (y <? x) = false.
Proof.
  rewrite !FloatAxioms.ltb_spec. unfold SFltb.
  rewrite (SFcompare_antisym (Prim2SF x) (Prim2SF y)).
  destruct (SFcompare (Prim2SF x) (Prim2SF y)) as [[ | | ]|];
    cbn; congruence.
Qed.

Lemma eqb_no_ltb (x y : float) : (x =? y) = true -> (x <? y) = false.
Proof.
  rewrite FloatAxioms.eqb_spec, FloatAxioms.ltb_spec.
  unfold SFeqb, SFltb.
  destruct (SFcompare (Prim2SF x) (Prim2SF y)) as [[ | | ]|];
    cbn; congruence.
Qed.

Lemma eqb_cero_SF (y : float) :
  (y =? 0) = true -> exists s, Prim2SF y = S754_zero s.
Proof.
  rewrite FloatAxioms.eqb_spec. change (Prim2SF 0) with (S754_zero false).
  destruct (Prim2SF y) as [s|s| |s m e]; cbn; try discriminate; eauto;
    destruct s; discriminate.
Qed.

Lemma is_nan_SF (x : float) :
  is_nan x = match Prim2SF x with S754_nan => true | _ => false end.
Proof.
  unfold is_nan. rewrite FloatAxioms.eqb_spec.
  destruct (Prim2SF x) as [s|s| |s m e]; cbn; try reflexivity.
  - destruct s; reflexivity.
  - unfold SFeqb, SFcompare.
    rewrite Z.compare_refl, Pos.compare_cont_refl.
    destruct s; reflexivity.
Qed.

Lemma is_finite_SF (x : float) :
  is_finite x =
  match Prim2SF x with
  | S754_nan | S754_infinity _ => false
  | _ => true
  end.
Proof.
  unfold is_finite, is_infinity. rewrite is_nan_SF.
  rewrite FloatAxioms.eqb_spec, abs_spec.
  change (Prim2SF infinity) with (S754_infinity false).
  destruct (Prim2SF x) as [s|s| |s m e]; reflexivity.
Qed.

(** IEEE division by a zero: the quotient is an infinity or a NaN. *)
Lemma div_cero_no_finito (x y : float) :
  (y =? 0) = true -> is_finite (x / y) = false.
Proof.
  intros H. destruct (eqb_cero_SF y H) as [s Hs].
  rewrite is_finite_SF, FloatAxioms.div_spec, Hs.
  destruct (Prim2SF x) as [s'|s'| |s' m e]; reflexivity.
Qed.

Lemma nan_no_menor (x y : float) : is_nan y = true -> (x <? y) = false.
Proof.
  rewrite is_nan_SF, FloatAxioms.ltb_spec.
  destruct (Prim2SF y) as [s|s| |s m e]; try discriminate.
  intros _. destruct (Prim2SF x); reflexivity.
Qed.

End Flotantes.

(** ** The order of binary64 *)

Ltac orden :=
  repeat match goal with
  | H : context [(?a ?= ?b)%Z] |- _ =>
      destruct (Z.compare_spec a b); cbn in H
  | |- context [(?a ?= ?b)%Z] =>
      destruct (Z.compare_spec a b); cbn
  | H : context [Pos.compare_cont Eq ?a ?b] |- _ =>
      change (Pos.compare_cont Eq a b) with (Pos.compare a b) in *;
      destruct (Pos.compare_spec a b); cbn in H
  | |- context [Pos.compare_cont Eq ?a ?b] =>
      change (Pos.compare_cont Eq a b) with (Pos.compare a b) in *;
      destruct (Pos.compare_spec a b); cbn
  end; subst; try discriminate; try reflexivity; try lia.

Section OrdenFlotante.

Local Open Scope float_scope.

Lemma SFltb_trans (x y z : spec_float) :
  SFltb x y = true -> SFltb y z = true -> SFltb x z = true.
Proof.
  unfold SFltb.
  destruct x as [sx|sx| |sx mx ex], y as [sy|sy| |sy my ey],
    z as [sz|sz| |sz mz ez];
    try (destruct sx); try (destruct sy); try (destruct sz);
    cbn; try discriminate; try reflexivity;
    intros H1 H2; orden.
Qed.

Lemma SFltb_cotrans (x y z : spec_float) :
  SFltb x z = true -> y <> S754_nan ->
  SFltb x y = true \/ SFltb y z = true.
Proof.
  unfold SFltb.
  destruct x as [sx|sx| |sx mx ex], y as [sy|sy| |sy my ey],
    z as [sz|sz| |sz mz ez];
    try (destruct sx); try (destruct sy); try (destruct sz);
    cbn; try discriminate; try congruence; auto;
    intros H1 _; orden; auto;
    try (left; orden; fail); try (right; orden; fail).
Qed.

Lemma SFleb_ltb_trans (x y z : spec_float) :
  SFleb x y = true -> SFltb y z = true -> SFltb x z = true.
Proof.
  unfold SFleb, SFltb.
  destruct x as [sx|sx| |sx mx ex], y as [sy|sy| |sy my ey],
    z as [sz|sz| |sz mz ez];
    try (destruct sx); try (destruct sy); try (destruct sz);
    cbn; try discriminate; try reflexivity;
    intros H1 H2; orden.
Qed.

Lemma ltb_trans (x y z : float) :
  (x <? y) = true -> (y <? z) = true -> (x <? z) = true.
Proof. rewrite !FloatAxioms.ltb_spec. apply SFltb_trans. Qed.

Lemma ltb_cotrans (x y z : float) :
  (x <? z) = true -> is_nan y = false ->
  (x <? y) = true \/ (y <? z) = true.
Proof.
  rewrite is_nan_SF, !FloatAxioms.ltb_spec. intros H Hy.
  apply SFltb_cotrans; [assumption|].
  intros E. rewrite E in Hy. discriminate.
Qed.

Lemma leb_ltb_trans (x y z : float) :
  (x <=? y) = true -> (y <? z) = true -> (x <? z) = true.
Proof.
  rewrite FloatAxioms.leb_spec, !FloatAxioms.ltb_spec.
  apply SFleb_ltb_trans.
Qed.




(** Not being smaller is transitive along a number. *)
Lemma no_menor_trans (x y z : float) :
  is_nan y = false ->
  (x <? y) = false -> (y <? z) = false -> (x <? z) = false.
Proof.
  intros Hy Hxy Hyz. destruct (x <? z) eqn:E; [|reflexivity].
  destruct (ltb_cotrans x y z E Hy); congruence.
Qed.

End OrdenFlotante.

(** ** Signs through rounding, addition and multiplication *)

Section SignoFlotante.

Local Open Scope Z_scope.

Lemma shr_1_no_neg (mrs : shr_record) :
  0 <= shr_m mrs -> 0 <= shr_m (shr_1 mrs).
Proof.
  destruct mrs as [m r s]. cbn.
  destruct m as [|[p|p|]|p]; cbn; intros H; lia.
Qed.

Lemma iter_pos_inv {A : Type} (P : A -> Prop) (f : A -> A) :
  (forall x, P x -> P (f x)) -> forall p x, P x -> P (iter_pos f p x).
Proof.
  intros Hf. induction p as [p IH|p IH|]; intros x Hx; cbn; auto.
Qed.

Lemma shr_no_neg (mrs : shr_record) (e n : Z) :
  0 <= shr_m mrs -> 0 <= shr_m (fst (shr mrs e n)).
Proof.
  intros H. destruct n; cbn; try assumption.
  apply (iter_pos_inv (fun r => 0 <= shr_m r));
    [apply shr_1_no_neg | assumption].
Qed.

Lemma shr_fexp_no_neg (m e : Z) (l : location) :
  0 <= m -> 0 <= shr_m (fst (shr_fexp prec emax m e l)).
Proof.
  intros H. unfold shr_fexp. apply shr_no_neg.
  destruct l as [|[ | | ]]; exact H.
Qed.

Lemma round_nearest_even_no_neg (m : Z) (l : location) :
  0 <= m -> 0 <= round_nearest_even m l.
Proof.
  intros H. destruct l as [|[ | | ]]; cbn; try lia.
  destruct (Z.even m); lia.
Qed.

(** Rounding a mantissa that is not negative never yields a NaN and
    keeps the sign it was given. *)
Lemma binary_round_aux_signo (sx : bool) (mx ex : Z) (lx : location) :
  0 <= mx -> signo_SF sx (binary_round_aux prec emax sx mx ex lx).
Proof.
  intros H. unfold binary_round_aux.
  pose proof (shr_fexp_no_neg mx ex lx H) as H1.
  destruct (shr_fexp prec emax mx ex lx) as [mrs' e']. cbn [fst] in H1.
  pose proof (shr_fexp_no_neg _ e' loc_Exact
                (round_nearest_even_no_neg _ (loc_of_shr_record mrs') H1))
    as H2.
  destruct (shr_fexp prec emax
              (round_nearest_even (shr_m mrs') (loc_of_shr_record mrs'))
              e' loc_Exact) as [mrs'' e''].
  cbn [fst] in H2.
  destruct (shr_m mrs'') as [|m|m]; cbn.
  - reflexivity.
  - destruct (e'' <=? 971); reflexivity.
  - lia.
Qed.

Lemma binary_round_signo (sx : bool) (mx : positive) (ex : Z) :
  signo_SF sx (binary_round prec emax sx mx ex).
Proof.
  unfold binary_round. destruct (shl_align _ _ _) as [mz ez].
  apply binary_round_aux_signo. lia.
Qed.

Lemma signo_no_neg (f : spec_float) : signo_SF false f -> no_neg_SF f.
Proof. destruct f as [s|s| |s m e]; cbn; intros H; subst; auto. Qed.

Lemma SFadd_no_neg (x y : spec_float) :
  no_neg_SF x -> no_neg_SF y -> no_neg_SF (SF64add x y).
Proof.
  destruct x as [sx|[|]| |[|] mx ex], y as [sy|[|]| |[|] my ey];
    cbn; try tauto.
  - destruct sx, sy; cbn; auto.
  - intros _ _. apply signo_no_neg, binary_round_signo.
Qed.

Lemma SFmul_no_neg (x : spec_float) (sy : bool) (my : positive) (ey : Z) :
  no_neg_SF x -> sy = false ->
  no_neg_SF (SF64mul x (S754_finite sy my ey)).
Proof.
  intros Hx ->. destruct x as [sx|[|]| |[|] mx ex]; cbn in *; try tauto.
  apply signo_no_neg, binary_round_aux_signo. lia.
Qed.

Lemma no_negativo_SF (x : float) :
  no_negativo x = true <-> no_neg_SF (Prim2SF x).
Proof.
  unfold no_negativo. rewrite FloatAxioms.leb_spec.
  change (Prim2SF 0) with (S754_zero false).
  destruct (Prim2SF x) as [s|[|]| |[|] m e]; cbn; split; auto;
    try discriminate; try tauto.
Qed.

Lemma no_negativo_no_nan (x : float) :
  no_negativo x = true -> PrimFloat.is_nan x = false.
Proof.
  rewrite no_negativo_SF, is_nan_SF.
  destruct (Prim2SF x); cbn; tauto.
Qed.

Lemma add_no_negativo (x y : float) :
  no_negativo x = true -> no_negativo y = true ->
  no_negativo (x + y)%float = true.
Proof.
  rewrite !no_negativo_SF, FloatAxioms.add_spec. apply SFadd_no_neg.
Qed.

(** Multiplying by one of the program's positive constants. *)
Lemma mul_no_negativo (x c : float) (m : positive) (e : Z) :
  Prim2SF c = S754_finite false m e ->
  no_negativo x = true -> no_negativo (x * c)%float = true.
Proof.
  intros Hc. rewrite !no_negativo_SF, FloatAxioms.mul_spec, Hc.
  intros Hx. now apply SFmul_no_neg.
Qed.

End SignoFlotante.

(** ** The sums of numpy and pandas *)

Section Sumas.

Import Pandas.
Local Open Scope float_scope.

Lemma sin_nan_casos (x : float) : sin_nan x = 0 \/ sin_nan x = x.
Proof. unfold sin_nan. destruct (is_nan x); auto. Qed.

Lemma mitad_redondeada (n : nat) :
  (128 < n)%nat -> (0 < n / 2 - (n / 2) mod 8 < n)%nat.
Proof.
  intros Hn.
  pose proof (Nat.mod_upper_bound (n / 2) 8 ltac:(discriminate)) as Hm.
  pose proof (Nat.div_le_lower_bound n 2 64 ltac:(discriminate)
                ltac:(lia)) as Hd.
  pose proof (Nat.div_lt n 2 ltac:(lia) ltac:(lia)) as Hl.
  lia.
Qed.

(** The depth bound of [pairwise_sum] never runs out: any two bounds
    that are at least the length give the same sum. *)
Lemma pairwise_sum_fuel (f1 : nat) :
  forall (f2 : nat) (a : list float),
    (List.length a <= f1)%nat -> (List.length a <= f2)%nat ->
    pairwise_sum f1 a = pairwise_sum f2 a.
Proof.
  induction f1 as [|f1 IH]; intros f2 a H1 H2.
  - destruct a; [|cbn in H1; lia]. destruct f2; reflexivity.
  - destruct f2 as [|f2].
    + destruct a; [|cbn in H2; lia]. reflexivity.
    + cbn [pairwise_sum].
      destruct (List.length a <=? 128)%nat eqn:E; [reflexivity|].
      apply Nat.leb_gt in E.
      pose proof (mitad_redondeada _ E) as Hn2.
      f_equal; apply IH;
        rewrite ?length_firstn, ?length_skipn; lia.
Qed.

(** Above 128 values the sum is the sum of the two parts. *)
Lemma pairwise_sum_partido (a : list float) :
  (128 < List.length a)%nat ->
  let n2 := (List.length a / 2 - (List.length a / 2) mod 8)%nat in
  pairwise_sum (List.length a) a
  = pairwise_sum (List.length (firstn n2 a)) (firstn n2 a)
    + pairwise_sum (List.length (skipn n2 a)) (skipn n2 a).
Proof.
  intros Hn n2.
  destruct (List.length a) as [|f] eqn:El; [lia|].
  cbn [pairwise_sum]. rewrite El.
  destruct (S f <=? 128)%nat eqn:E; [apply Nat.leb_le in E; lia|].
  assert (Hn2 : (0 < n2 < S f)%nat)
    by (subst n2; apply mitad_redondeada; lia).
  fold n2. f_equal; apply pairwise_sum_fuel;
    rewrite ?length_firstn, ?length_skipn; lia.
Qed.

Section Invariante.

Variable P : float -> Prop.
Hypothesis P_cero : P 0.
Hypothesis P_suma : forall x y : float, P x -> P y -> P (x + y).

Lemma fold_inv (a : list float) :
  forall acc : float, P acc -> Forall P a -> P (fold_left add a acc).
Proof.
  induction a as [|x a IH]; intros acc Hacc Ha; cbn; [exact Hacc|].
  inversion Ha; subst. apply IH; auto.
Qed.

Lemma bloques8_inv (n : nat) :
  forall (a : list float) (r0 r1 r2 r3 r4 r5 r6 r7 : float),
    (List.length a <= n)%nat ->
    P r0 -> P r1 -> P r2 -> P r3 -> P r4 -> P r5 -> P r6 -> P r7 ->
    Forall P a ->
    P (bloques8 r0 r1 r2 r3 r4 r5 r6 r7 a).
Proof.
  induction n as [|n IH]; intros a r0 r1 r2 r3 r4 r5 r6 r7 Hn
    H0 H1 H2 H3 H4 H5 H6 H7 Ha;
    destruct a as [|a0 [|a1 [|a2 [|a3 [|a4 [|a5 [|a6 [|a7 a']]]]]]]];
    cbn [bloques8];
    try (apply fold_inv; [auto 10 | exact Ha]);
    cbn in Hn; try lia.
  repeat match goal with
         | H : Forall P (_ :: _) |- _ => inversion H; clear H; subst
         end.
  apply IH; auto; lia.
Qed.

Lemma bloque_inv (a : list float) : Forall P a -> P (bloque a).
Proof.
  intros Ha.
  destruct a as [|a0 [|a1 [|a2 [|a3 [|a4 [|a5 [|a6 [|a7 a']]]]]]]];
    cbn [bloque]; try (now apply fold_inv).
  repeat match goal with
         | H : Forall P (_ :: _) |- _ => inversion H; clear H; subst
         end.
  now apply (bloques8_inv (List.length a')).
Qed.

Lemma pairwise_sum_inv (fuel : nat) :
  forall a : list float, Forall P a -> P (pairwise_sum fuel a).
Proof.
  induction fuel as [|fuel IH]; intros a Ha; cbn [pairwise_sum];
    destruct (List.length a <=? 128)%nat; try now apply bloque_inv.
  rewrite <- (firstn_skipn
                (List.length a / 2 - (List.length a / 2) mod 8) a) in Ha.
  apply Forall_app in Ha as [Hf Hs].
  apply P_suma; now apply IH.
Qed.

(** Whatever holds of 0.0 and is kept by addition holds of the sum of a
    column whose values have it. *)
Lemma suma_f_inv (xs : list float) : Forall P xs -> P (suma_f xs).
Proof.
  intros H. unfold suma_f, np_sum.
  apply P_suma; [exact P_cero|]. apply pairwise_sum_inv.
  apply Forall_map. eapply Forall_impl; [|exact H].
  intros x Hx. now destruct (sin_nan_casos x) as [-> | ->].
Qed.

End Invariante.

Lemma suma_f_no_negativa (xs : list float) :
  Forall (fun x => no_negativo x = true) xs ->
  no_negativo (suma_f xs) = true.
Proof.
  apply (suma_f_inv (fun x => no_negativo x = true));
    [reflexivity | apply add_no_negativo].
Qed.

End Sumas.

(** ** The pandas operations *)

Section OperacionesPandas.

Import Pandas.

Lemma mapM_ok {A B : Type} (f : A -> resultado B) (h : A -> B)
    (l : list A) :
  (forall a, In a l -> f a = Ok (h a)) -> mapM f l = Ok (map h l).
Proof.
  induction l as [|a l IH]; intros Hf; cbn.
  - reflexivity.
  - rewrite (Hf a (or_introl eq_refl)). cbn.
    rewrite IH by (intros b Hb; apply Hf; now right).
    reflexivity.
Qed.

Lemma proceso_eqb_refl (p : proceso) : proceso_eqb p p = true.
Proof. destruct p; reflexivity. Qed.

Lemma proceso_eqb_eq (p q : proceso) : proceso_eqb p q = true -> p = q.
Proof. destruct p, q; cbn; congruence. Qed.

Lemma en_claves (p : proceso) : In p claves.
Proof. destruct p; cbn; auto. Qed.

Lemma length_cero {A : Type} (l : list A) :
  negb (Nat.eqb (List.length l) 0) = true <-> l <> [].
Proof.
  destruct l; cbn; split; intros H; congruence.
Qed.

(** The groups are exactly the non-empty sets of rows of one process. *)
Lemma groupby_in (df : DataFrame) (p : proceso) (g : DataFrame) :
  In (p, g) (groupby df) <-> g = grupo p df /\ g <> [].
Proof.
  unfold groupby. rewrite filter_In, in_map_iff. cbn [snd].
  rewrite length_cero. split.
  - intros [[q [Hq _]] Hne]. inversion Hq; subst. now split.
  - intros [-> Hne]. split; [|assumption].
    exists p. split; [reflexivity | apply en_claves].
Qed.

Lemma grupo_de_fila (df : DataFrame) (r : fila) :
  In r df -> In r (grupo (proceso_de r) df).
Proof.
  intros H. unfold grupo. apply filter_In. split; [assumption|].
  apply proceso_eqb_refl.
Qed.

Lemma grupo_en_groupby (df : DataFrame) (r : fila) :
  In r df -> In (proceso_de r, grupo (proceso_de r) df) (groupby df).
Proof.
  intros H. apply groupby_in. split; [reflexivity|].
  intros E. apply grupo_de_fila in H. rewrite E in H. destruct H.
Qed.

Lemma suma_no_vacio (c : columna) (x : DataFrame) :
  x <> [] -> suma c x = Flotante (suma_f (map c x)).
Proof. destruct x; [congruence | reflexivity]. Qed.

Lemma razon_ok (x : DataFrame) :
  x <> [] -> razon_produccion_agua x = Ok (Flotante (razon_f x)).
Proof.
  intros H. unfold razon_produccion_agua.
  rewrite !suma_no_vacio by assumption. reflexivity.
Qed.

Lemma eficiencia_hidrica_ok (df : DataFrame) :
  df <> [] -> eficiencia_hidrica df = Ok (sort_values_desc (razones df)).
Proof.
  intros H. unfold eficiencia_hidrica.
  destruct df as [|r df']; [congruence|].
  rewrite (mapM_ok _ (fun g => (fst g, razon_f (snd g)))).
  - reflexivity.
  - intros [p g] Hg. apply groupby_in in Hg as [_ Hne].
    cbn [fst snd]. rewrite razon_ok by assumption. reflexivity.
Qed.

Lemma insertar_perm (e : proceso * float) (s : Series) :
  Permutation (insertar e s) (e :: s).
Proof.
  induction s as [|e' s IH]; cbn.
  - reflexivity.
  - destruct (PrimFloat.ltb (snd e) (snd e')).
    + rewrite IH. apply perm_swap.
    + reflexivity.
Qed.

Lemma ordenar_perm (s : Series) : Permutation (ordenar s) s.
Proof.
  induction s as [|e s IH]; cbn.
  - reflexivity.
  - rewrite insertar_perm. now constructor.
Qed.

Lemma particion_perm (s : Series) :
  Permutation (filter no_nan s ++ filter es_nan s)%list s.
Proof.
  induction s as [|e s IH]; cbn.
  - reflexivity.
  - unfold no_nan at 1. destruct (es_nan e); cbn.
    + rewrite <- Permutation_middle. now constructor.
    + now constructor.
Qed.

Lemma sort_values_desc_perm (s : Series) :
  Permutation (sort_values_desc s) s.
Proof.
  unfold sort_values_desc.
  rewrite ordenar_perm. apply particion_perm.
Qed.

End OperacionesPandas.

(** ** Filters *)

Lemma filter_todos {A : Type} (f : A -> bool) (l : list A) :
  Forall (fun a => f a = true) l -> filter f l = l.
Proof.
  induction 1 as [|a l Ha _ IH]; cbn; [reflexivity|].
  now rewrite Ha, IH.
Qed.

Lemma filter_ninguno {A : Type} (f : A -> bool) (l : list A) :
  Forall (fun a => f a = false) l -> filter f l = [].
Proof.
  induction 1 as [|a l Ha _ IH]; cbn; [reflexivity|].
  now rewrite Ha.
Qed.

(** ** Maxima and the order of the ranking *)

Section Maximos.

Import Pandas.
Local Open Scope float_scope.

(** [argmax] returns the first largest entry: everything before it is
    smaller, nothing after it is greater. *)
Lemma argmax_primero (s : Series) :
  forall (e : proceso * float) (pre mid : Series),
    Forall (fun x => (snd x <? snd e) = true) pre ->
    Forall (fun x => (snd e <? snd x) = false) mid ->
    Forall (fun x => no_nan x = true) (mid ++ s)%list ->
    exists pre' post' : Series,
      (pre ++ e :: mid ++ s)%list = (pre' ++ argmax e s :: post')%list /\
      Forall (fun x => (snd x <? snd (argmax e s)) = true) pre' /\
      Forall (fun x => (snd (argmax e s) <? snd x) = false) post'.
Proof.
  induction s as [|x s IH]; intros e pre mid Hpre Hmid Hnan.
  - exists pre, mid. cbn. rewrite app_nil_r. now repeat split.
  - cbn [argmax]. destruct (snd e <? snd x) eqn:E.
    + destruct (IH x (pre ++ e :: mid)%list []) as [pre' [post' [E1 [H1 H2]]]].
      * apply Forall_app. split.
        -- eapply Forall_impl; [|exact Hpre].
           intros a Ha. cbn in Ha. exact (ltb_trans _ _ _ Ha E).
        -- constructor; [exact E|].
           apply Forall_forall. intros a Ha.
           pose proof (proj1 (Forall_forall _ _) Hmid a Ha) as Hea.
           apply Forall_app in Hnan as [Hnm _].
           pose proof (proj1 (Forall_forall _ _) Hnm a Ha) as Hna.
           unfold no_nan, es_nan in Hna. apply negb_true_iff in Hna.
           cbn in Hea.
           destruct (ltb_cotrans _ (snd a) _ E Hna); congruence.
      * constructor.
      * apply Forall_app in Hnan as [_ Hs]. now inversion Hs.
      * exists pre', post'. split; [|now split].
        rewrite <- E1. cbn [app]. rewrite <- !app_assoc. reflexivity.
    + destruct (IH e pre (mid ++ [x])%list) as [pre' [post' [E1 [H1 H2]]]].
      * exact Hpre.
      * apply Forall_app. split; [exact Hmid|]. now constructor.
      * now rewrite <- app_assoc.
      * exists pre', post'. split; [|now split].
        rewrite <- E1. rewrite <- !app_assoc. reflexivity.
Qed.

Lemma argmax_cabeza (e : proceso * float) (s : Series) :
  Forall (no_menor e) s -> argmax e s = e.
Proof.
  induction 1 as [|x s Hx _ IH]; cbn; [reflexivity|].
  unfold no_menor in Hx. now rewrite Hx.
Qed.

Lemma insertar_fuerte (e : proceso * float) (s : Series) :
  Forall (fun x => no_nan x = true) s ->
  StronglySorted no_menor s -> StronglySorted no_menor (insertar e s).
Proof.
  intros Hnan Hs. induction Hs as [|e' s Hs IH He']; cbn.
  - constructor; constructor.
  - inversion Hnan as [|? ? Hn Hnan']; subst.
    destruct (snd e <? snd e') eqn:E.
    + constructor; [now apply IH|].
      apply Forall_forall. intros x Hx.
      apply (Permutation_in _ (insertar_perm e s)) in Hx.
      destruct Hx as [<-|Hx].
      * unfold no_menor. now apply ltb_asym.
      * now apply (proj1 (Forall_forall _ _) He').
    + constructor; [now constructor|].
      constructor; [exact E|].
      apply Forall_forall. intros x Hx.
      pose proof (proj1 (Forall_forall _ _) He' x Hx) as Hex.
      unfold no_nan, es_nan in Hn. apply negb_true_iff in Hn.
      exact (no_menor_trans _ _ _ Hn E Hex).
Qed.

Lemma ordenar_no_nan (s : Series) :
  Forall (fun x => no_nan x = true) s ->
  Forall (fun x => no_nan x = true) (ordenar s).
Proof.
  intros H. apply Forall_forall. intros x Hx.
  apply (Permutation_in _ (ordenar_perm s)) in Hx.
  now apply (proj1 (Forall_forall _ _) H).
Qed.

Lemma ordenar_fuerte (s : Series) :
  Forall (fun x => no_nan x = true) s -> StronglySorted no_menor (ordenar s).
Proof.
  induction 1 as [|e s He Hs IH]; cbn; [constructor|].
  apply insertar_fuerte; [now apply ordenar_no_nan | exact IH].
Qed.

Lemma fuerte_con_nan (a b : Series) :
  StronglySorted no_menor a ->
  Forall (fun x => es_nan x = true) b ->
  StronglySorted no_menor (a ++ b)%list.
Proof.
  intros Ha Hb.
  assert (Hcola : forall x : proceso * float, Forall (no_menor x) b).
  { intros x. eapply Forall_impl; [|exact Hb].
    intros y Hy. now apply nan_no_menor. }
  induction Ha as [|e a Ha IH He]; cbn.
  - induction Hb as [|y b Hy Hb IHb]; constructor.
    + apply IHb. intros x. specialize (Hcola x). now inversion Hcola.
    + specialize (Hcola y). now inversion Hcola.
  - constructor; [exact IH|]. apply Forall_app. now split.
Qed.

Lemma filtro_no_nan (s : Series) :
  Forall (fun x => no_nan x = true) (filter no_nan s).
Proof. apply Forall_forall. intros x Hx. now apply filter_In in Hx. Qed.

Lemma filtro_es_nan (s : Series) :
  Forall (fun x => es_nan x = true) (filter es_nan s).
Proof. apply Forall_forall. intros x Hx. now apply filter_In in Hx. Qed.

Lemma sort_values_desc_fuerte (s : Series) :
  StronglySorted no_menor (sort_values_desc s).
Proof.
  unfold sort_values_desc. apply fuerte_con_nan.
  - apply ordenar_fuerte, filtro_no_nan.
  - apply filtro_es_nan.
Qed.

(** The largest value of a sorted Series is the value of its head, when
    the head is a number. *)
Lemma max_de_ordenada (s : Series) (e : proceso * float) (resto : Series) :
  sort_values_desc s = e :: resto ->
  is_nan (snd e) = false ->
  max (sort_values_desc s) = snd e.
Proof.
  intros Hs He. unfold max.
  assert (Hf : filter no_nan (sort_values_desc s)
               = ordenar (filter no_nan s)).
  { unfold sort_values_desc. rewrite filter_app.
    rewrite (filter_todos no_nan (ordenar (filter no_nan s)))
      by apply ordenar_no_nan, filtro_no_nan.
    rewrite (filter_ninguno no_nan (filter es_nan s)).
    - apply app_nil_r.
    - eapply Forall_impl; [|apply filtro_es_nan].
      intros x Hx. unfold no_nan. now rewrite Hx. }
  rewrite Hf.
  pose proof (ordenar_fuerte _ (filtro_no_nan s)) as Hfu.
  unfold sort_values_desc in Hs.
  destruct (ordenar (filter no_nan s)) as [|e' l].
  - cbn in Hs.
    assert (Hin : In e (filter es_nan s)) by (rewrite Hs; now left).
    apply filter_In in Hin as [_ Hin]. unfold es_nan in Hin. congruence.
  - cbn in Hs. injection Hs as -> _.
    inversion Hfu; subst. now rewrite argmax_cabeza.
Qed.

Lemma claves_sin_repetir (df : DataFrame) : NoDup (map fst (groupby df)).
Proof.
  unfold groupby.
  assert (H : NoDup claves).
  { unfold claves. repeat constructor; cbn; intuition discriminate. }
  induction H as [|p l Hp _ IH]; cbn; [constructor|].
  destruct (negb (Nat.eqb (List.length (grupo p df)) 0)); cbn;
    [|exact IH].
  constructor; [|exact IH].
  intros Hin. apply Hp. apply in_map_iff in Hin as [[q g] [Hq Hin]].
  cbn in Hq. subst. apply filter_In in Hin as [Hin _].
  apply in_map_iff in Hin as [q [Hq Hin]]. now inversion Hq; subst.
Qed.







Lemma sort_values_desc_ordenada (s : Series) :
  ordenada_desc (sort_values_desc s).
Proof.
  exists (ordenar (filter no_nan s)), (filter es_nan s).
  split; [reflexivity|]. split; [apply ordenar_no_nan, filtro_no_nan|].
  split; [apply ordenar_fuerte, filtro_no_nan | apply filtro_es_nan].
Qed.

Lemma claves_de_razones (df : DataFrame) :
  map fst (razones df) = map fst (groupby df).
Proof. unfold razones. rewrite map_map. reflexivity. Qed.

End Maximos.

(** ** The water-efficiency analysis *)

(** C1, at the three sample captures: the ranking puts Procesamiento
    first, but the value that [analisis_agua] interpolates as the most
    efficient process is the bound method [eficiencia.idxmax] itself,
    which was never called, and not the label of that first entry. *)
Theorem mejor_proceso_sin_invocar :
  exists (s : Series) (t : fstring),
    eficiencia_hidrica df_tres = Ok s /\
    option_map fst (hd_error s) = Some Procesamiento /\
    analisis_agua df_tres = Ok (VPlantilla t) /\
    nth_error (huecos t) 0 = Some (VMetodo "idxmax" s) /\
    nth_error (huecos t) 0 <> Some (VStr (nombre Procesamiento)).
Proof.
  eexists. eexists.
  split; [vm_compute; reflexivity|].
  split; [reflexivity|].
  split; [vm_compute; reflexivity|].
  split; [reflexivity|].
  cbn. discriminate.
Qed.

(** C2 as stated fails: with one capture that has production and no
    water, the ranking has an entry whose water sum is 0 and whose ratio
    is infinite. *)
Lemma eficiencia_hidrica_denominador_cero :
  ~ (forall (df : DataFrame) (s : Series),
       eficiencia_hidrica df = Ok s ->
       forall (p : proceso) (x : float),
         In (p, x) s ->
         (Pandas.suma_f (map agua_m3 (grupo p df)) =? 0)%float = false /\
         PrimFloat.is_finite x = true).
Proof.
  intros H.
  assert (E : eficiencia_hidrica df_sin_agua = Ok [(Relaves, infinity)])
    by (vm_compute; reflexivity).
  destruct (H _ _ E Relaves infinity (or_introl eq_refl)) as [_ Hfin].
  vm_compute in Hfin. discriminate.
Qed.

(** C2, amended: on every non-empty collection the ranking is produced
    and is the list of the ratios production sum / water sum of all
    groups, reordered into descending order with the NaN ratios last: a
    part without NaN in which no entry is smaller than any later one,
    then the NaN entries.  Every process that has a record has its
    entry, exactly one, no group is left out, and the entry of a group
    whose water sum is 0 carries a ratio that is not finite (an infinity
    or a NaN). *)
Theorem eficiencia_hidrica_sin_exclusion (df : DataFrame) :
  df <> [] ->
  exists s : Series,
    eficiencia_hidrica df = Ok s /\
    Permutation s (razones df) /\
    ordenada_desc s /\
    NoDup (map fst s) /\
    (forall r : fila,
        In r df -> In (proceso_de r, razon_f (grupo (proceso_de r) df)) s) /\
    (forall (p : proceso) (x : float),
        In (p, x) s -> grupo p df <> [] /\ x = razon_f (grupo p df)) /\
    (forall p : proceso,
        (Pandas.suma_f (map agua_m3 (grupo p df)) =? 0)%float = true ->
        PrimFloat.is_finite (razon_f (grupo p df)) = false).
Proof.
  intros Hne. exists (Pandas.sort_values_desc (razones df)).
  split; [now apply eficiencia_hidrica_ok|].
  split; [apply sort_values_desc_perm|].
  split; [apply sort_values_desc_ordenada|].
  split; [|split; [|split]].
  - apply (Permutation_NoDup
             (Permutation_sym
                (Permutation_map fst (sort_values_desc_perm (razones df))))).
    rewrite claves_de_razones. apply claves_sin_repetir.
  - intros r Hr.
    apply (Permutation_in _ (Permutation_sym (sort_values_desc_perm _))).
    unfold razones. apply in_map_iff.
    exists (proceso_de r, grupo (proceso_de r) df).
    split; [reflexivity | now apply grupo_en_groupby].
  - intros p x Hx.
    apply (Permutation_in _ (sort_values_desc_perm _)) in Hx.
    unfold razones in Hx. apply in_map_iff in Hx as [[q g] [E Hg]].
    cbn [fst snd] in E. inversion E; subst.
    apply groupby_in in Hg as [-> Hg]. now split.
  - intros p Hz. unfold razon_f. now apply div_cero_no_finito.
Qed.

Lemma eficiencia_hidrica_sin_exclusion_witness :
  exists s : Series,
    eficiencia_hidrica df_sin_agua = Ok s /\
    In (Relaves, razon_f (grupo Relaves df_sin_agua)) s /\
    PrimFloat.is_finite (razon_f (grupo Relaves df_sin_agua)) = false.
Proof.
  destruct (eficiencia_hidrica_sin_exclusion df_sin_agua)
    as [s [Hs [_ [_ [_ [Hin [_ Hz]]]]]]].
  - discriminate.
  - exists s. split; [exact Hs|]. split.
    + apply (Hin (fila_de 1 (captura Relaves 0 0 0 5))).
      left. reflexivity.
    + apply Hz. reflexivity.
Defined.

(** ** Compliance verdicts *)

(** C4 as stated fails: when the observed daily CO2 equals the limit of
    50 the verdict is the failing one. *)
Lemma cumplimiento_en_el_limite :
  ~ (forall (df : DataFrame) (x : float),
       tasa_diaria co2_ton df = Ok (Flotante x) ->
       (cumplimiento_co2 df = Ok "✅" <-> (x <=? 50)%float = true)).
Proof.
  intros H.
  assert (E : tasa_diaria co2_ton df_co2_en_limite = Ok (Flotante 50%float))
    by (vm_compute; reflexivity).
  destruct (H _ _ E) as [_ Hle].
  specialize (Hle eq_refl). vm_compute in Hle. discriminate.
Qed.

Lemma float_of_Z_50 : float_of_Z 50 = 50%float.
Proof. reflexivity. Qed.

Lemma float_of_Z_100 : float_of_Z 100 = 100%float.
Proof. reflexivity. Qed.

Lemma tasa_diaria_ok (c : columna) (df : DataFrame) :
  exists x : float, tasa_diaria c df = Ok (Flotante x).
Proof.
  destruct df; eexists; reflexivity.
Qed.

(** ** Routing of the question *)

Section Enrutamiento.

Lemma prefix_spec (sub s : string) :
  String.prefix sub s = true <-> exists post : string, s = sub ++ post.
Proof.
  revert s. induction sub as [|c sub IH]; intros s; cbn.
  - split; [intros _; now exists s | intros _; destruct s; reflexivity].
  - destruct s as [|d s]; cbn.
    + split; [discriminate | intros [post H]; discriminate].
    + destruct (Ascii.ascii_dec c d) as [->|Hcd].
      * rewrite IH. split; intros [post H]; exists post; congruence.
      * split; [discriminate|].
        intros [post H]. congruence.
Qed.

(** [contiene] decides the substring relation. *)
Lemma contiene_spec (sub s : string) :
  contiene sub s = true <-> subcadena sub s.
Proof.
  unfold subcadena. induction s as [|d s IH].
  - cbn [contiene]. destruct (String.prefix sub "") eqn:E.
    + split; [intros _|reflexivity].
      apply prefix_spec in E as [post E]. now exists "", post.
    + split; [discriminate|].
      intros [pre [post H]].
      destruct pre; [|discriminate]. cbn in H.
      assert (P : String.prefix sub "" = true)
        by (apply prefix_spec; now exists post).
      congruence.
  - cbn [contiene]. destruct (String.prefix sub (String d s)) eqn:E.
    + split; [intros _|reflexivity].
      apply prefix_spec in E as [post E]. now exists "", post.
    + rewrite IH. split.
      * intros [pre [post H]]. exists (String d pre), post.
        cbn. now rewrite H.
      * intros [pre [post H]]. destruct pre as [|d' pre].
        -- cbn in H.
           assert (P : String.prefix sub (String d s) = true)
             by (apply prefix_spec; now exists post).
           congruence.
        -- cbn in H. injection H as _ H. now exists pre, post.
Qed.

Lemma contiene_false (sub s : string) :
  contiene sub s = false <-> ~ subcadena sub s.
Proof.
  rewrite <- contiene_spec. destruct (contiene sub s); split; congruence.
Qed.

Lemma norma_ley :
  getitem normas_peru "Ley General del Ambiente" = Ok "Ley N° 28611".
Proof. reflexivity. Qed.

Lemma norma_limite :
  getitem normas_peru "Límite CO₂ Minería"
  = Ok "50 ton/día (DS N° 003-2014-MINAM)".
Proof. reflexivity. Qed.

Lemma norma_agua :
  getitem normas_peru "Agua"
  = Ok "Límite 5000 m3/día (Ley de Recursos Hídricos)".
Proof. reflexivity. Qed.

Lemma norma_multas :
  getitem normas_peru "Multas" = Ok "Hasta 10,000 UIT por incumplimiento".
Proof. reflexivity. Qed.

Lemma huecos_respuesta (pregunta : string) (a : valor) :
  exists t : fstring,
    respuesta pregunta a = Ok t /\
    huecos t =
      [ VStr pregunta; a; VStr "Ley N° 28611";
        VStr "50 ton/día (DS N° 003-2014-MINAM)";
        VStr "Hasta 10,000 UIT por incumplimiento" ].
Proof.
  unfold respuesta. rewrite norma_ley, norma_limite, norma_multas.
  cbn [bind]. eexists. split; reflexivity.
Qed.

End Enrutamiento.

(** C5: the branch is chosen by looking for "agua" and then for "emision"
    in the lower-cased question.  A question with "agua" gets the water
    analysis whether or not it also has "emision"; one with "emision" and
    no "agua" gets the emissions analysis; any other question gets the
    page whose only interpolated values are the question itself, an empty
    analysis and the three fixed legal texts. *)
Theorem consulta_ia_enrutamiento (pregunta : string) (df : DataFrame) :
  (subcadena "agua" (lower pregunta) ->
   consulta_ia pregunta df = (a <- analisis_agua df ;; respuesta pregunta a)) /\
  (~ subcadena "agua" (lower pregunta) ->
   subcadena "emision" (lower pregunta) ->
   consulta_ia pregunta df
   = (a <- analisis_emisiones df ;; respuesta pregunta a)) /\
  (~ subcadena "agua" (lower pregunta) ->
   ~ subcadena "emision" (lower pregunta) ->
   exists t : fstring,
     consulta_ia pregunta df = Ok t /\
     huecos t =
       [ VStr pregunta; VStr ""; VStr "Ley N° 28611";
         VStr "50 ton/día (DS N° 003-2014-MINAM)";
         VStr "Hasta 10,000 UIT por incumplimiento" ]).
Proof.
  unfold consulta_ia. split; [|split].
  - intros Ha. apply contiene_spec in Ha. rewrite Ha. reflexivity.
  - intros Ha He. apply contiene_false in Ha. apply contiene_spec in He.
    rewrite Ha, He. reflexivity.
  - intros Ha He. apply contiene_false in Ha. apply contiene_false in He.
    rewrite Ha, He. cbn [bind]. apply huecos_respuesta.
Qed.

Lemma consulta_ia_enrutamiento_witness :
  consulta_ia "Uso de AGUA y emisiones" df_tres
  = (a <- analisis_agua df_tres ;;
     respuesta "Uso de AGUA y emisiones" a) /\
  consulta_ia "EMISIONES del mes" df_tres
  = (a <- analisis_emisiones df_tres ;; respuesta "EMISIONES del mes" a) /\
  exists t : fstring,
    consulta_ia "Multas vigentes" df_tres = Ok t /\
    huecos t =
      [ VStr "Multas vigentes"; VStr ""; VStr "Ley N° 28611";
        VStr "50 ton/día (DS N° 003-2014-MINAM)";
        VStr "Hasta 10,000 UIT por incumplimiento" ].
Proof.
  split; [|split].
  - apply (consulta_ia_enrutamiento "Uso de AGUA y emisiones" df_tres).
    now exists "uso de ", " y emisiones".
  - apply (consulta_ia_enrutamiento "EMISIONES del mes" df_tres).
    + apply contiene_false. reflexivity.
    + now exists "", "es del mes".
  - apply (consulta_ia_enrutamiento "Multas vigentes" df_tres).
    + apply contiene_false. reflexivity.
    + apply contiene_false. reflexivity.
Defined.

(** ** The executive report *)

Section Reporte.

Import Pandas.

(** On a table with rows nothing in the report raises; these are the
    values it interpolates, in order. *)
Lemma huecos_reporte (ahora : string) (df : DataFrame) :
  df <> [] ->
  exists t : fstring,
    generar_reporte ahora df = Ok t /\
    huecos t =
      [ VStr ahora;
        VNum (Flotante (suma_f (map produccion_ton df)));
        VNum (Flotante (suma_f (map agua_m3 df)
                        / suma_f (map produccion_ton df))%float);
        VNum (Flotante (suma_f (map co2_ton df)
                        / suma_f (map ingresos_soles df))%float);
        VStr (tendencia df);
        VStr (niveles_co2 df);
        VNum (Flotante (suma_f (map agua_m3 df) / 30)%float);
        VStr "Límite 5000 m3/día (Ley de Recursos Hídricos)" ].
Proof.
  intros Hne.
  unfold generar_reporte, intensidad_hidrica, emisiones_por_sol,
    tasa_diaria.
  rewrite !suma_no_vacio by assumption.
  cbn [truediv bind a_float]. rewrite norma_agua. cbn [bind].
  eexists. split; reflexivity.
Qed.

End Reporte.

(** C6 as stated fails: a table whose only capture has water and no
    production has production total 0, and its report is generated. *)
Lemma reporte_sin_produccion_no_falla :
  ~ (forall (ahora : string) (df : DataFrame),
       (Pandas.suma_f (map produccion_ton df) =? 0)%float = true ->
       exists e : excepcion, generar_reporte ahora df = Raise e).
Proof.
  intros H.
  destruct (H "mayo 2024" df_sin_produccion eq_refl) as [e He].
  vm_compute in He. discriminate.
Qed.

(** C6, amended: for every table with at least one row whose production
    total is 0 the report is generated without raising, and the water
    intensity it shows is the IEEE quotient of the water total by that
    zero: a value that is not finite (an infinity or a NaN). *)
Theorem reporte_sin_produccion (ahora : string) (df : DataFrame) :
  df <> [] ->
  (Pandas.suma_f (map produccion_ton df) =? 0)%float = true ->
  exists (t : fstring) (x : float),
    generar_reporte ahora df = Ok t /\
    intensidad_hidrica df = Ok (Flotante x) /\
    nth_error (huecos t) 2 = Some (VNum (Flotante x)) /\
    PrimFloat.is_finite x = false.
Proof.
  intros Hne Hz.
  destruct (huecos_reporte ahora df Hne) as [t [Ht Hh]].
  exists t. eexists.
  split; [exact Ht|].
  split.
  - unfold intensidad_hidrica.
    rewrite !suma_no_vacio by assumption. reflexivity.
  - split; [rewrite Hh; reflexivity|].
    now apply div_cero_no_finito.
Qed.

Lemma reporte_sin_produccion_witness :
  exists (t : fstring) (x : float),
    generar_reporte "mayo 2024" df_sin_produccion = Ok t /\
    intensidad_hidrica df_sin_produccion = Ok (Flotante x) /\
    nth_error (huecos t) 2 = Some (VNum (Flotante x)) /\
    PrimFloat.is_finite x = false.
Proof.
  apply (reporte_sin_produccion "mayo 2024" df_sin_produccion).
  - discriminate.
  - reflexivity.
Defined.

(** C9 as stated fails: the report has no baseline input.  With a mean
    energy of 150 and a baseline of 200 the verdict is not "mejorado". *)
Lemma tendencia_sin_linea_base :
  ~ (forall (df : DataFrame) (base : float),
       df <> [] ->
       (tendencia df = "mejorado"
        <-> (Pandas.mean energia_kwh df <? base)%float = true)).
Proof.
  intros H.
  assert (Hne : df_energia_150 <> []) by discriminate.
  destruct (H df_energia_150 200%float Hne) as [_ Hm].
  specialize (Hm eq_refl). vm_compute in Hm. discriminate.
Qed.

(** C9, amended: for every table with at least one row the report is
    generated and its trend verdict is "mejorado" exactly when the mean
    of the energy column is below the fixed value 100, and "empeorado"
    otherwise. *)
Theorem tendencia_contra_100 (ahora : string) (df : DataFrame) :
  df <> [] ->
  exists t : fstring,
    generar_reporte ahora df = Ok t /\
    nth_error (huecos t) 4 = Some (VStr (tendencia df)) /\
    (tendencia df = "mejorado"
     <-> (Pandas.mean energia_kwh df <? 100)%float = true) /\
    (tendencia df = "empeorado"
     <-> (Pandas.mean energia_kwh df <? 100)%float = false).
Proof.
  intros Hne.
  destruct (huecos_reporte ahora df Hne) as [t [Ht Hh]].
  exists t. split; [exact Ht|].
  split; [rewrite Hh; reflexivity|].
  unfold tendencia. cbn [lt a_float]. rewrite float_of_Z_100.
  destruct (Pandas.mean energia_kwh df <? 100)%float;
    repeat split; intros; congruence.
Qed.

Lemma tendencia_contra_100_witness :
  exists t : fstring,
    generar_reporte "mayo 2024" df_energia_150 = Ok t /\
    nth_error (huecos t) 4 = Some (VStr (tendencia df_energia_150)) /\
    (tendencia df_energia_150 = "mejorado"
     <-> (Pandas.mean energia_kwh df_energia_150 <? 100)%float = true) /\
    (tendencia df_energia_150 = "empeorado"
     <-> (Pandas.mean energia_kwh df_energia_150 <? 100)%float = false).
Proof.
  apply (tendencia_contra_100 "mayo 2024" df_energia_150).
  discriminate.
Defined.

(** ** The capture form *)

Lemma fila_de_derivada (k : Z) (f : formulario) : derivada (fila_de k f).
Proof. repeat split. Qed.

Lemma paso_agrega (t t' : list fila) :
  paso t t' -> exists r : fila, t' = (t ++ [r])%list /\ derivada r.
Proof.
  intros [f t0]. eexists. split; [reflexivity | apply fila_de_derivada].
Qed.

(** C7: the row that the form appends copies the six captured values and
    has revenue = production * 5000, cost = production * 3500,
    environmental investment = CO2 * 40 and waste = 0.  Every write to
    the table appends one row and leaves the rows already there as they
    are, so in every table the program can reach each row still has the
    derived values it was created with. *)
Theorem guardar_datos_campos_derivados :
  (forall (f : formulario) (t : list fila),
      exists r : fila,
        guardar_datos f t = (t ++ [r])%list /\
        fecha r = f_fecha f /\
        proceso_de r = f_proceso f /\
        agua_m3 r = f_agua f /\
        energia_kwh r = f_energia f /\
        co2_ton r = f_co2 f /\
        produccion_ton r = f_produccion f /\
        ingresos_soles r = (f_produccion f * 5000)%float /\
        gastos_soles r = (f_produccion f * 3500)%float /\
        inversion_ambiental_soles r = (f_co2 f * 40)%float /\
        residuos_ton r = 0%float) /\
  (forall t t' : list fila,
      paso t t' -> exists r : fila, t' = (t ++ [r])%list) /\
  (forall t : list fila, alcanzable t -> Forall derivada t).
Proof.
  split; [|split].
  - intros f t. eexists. split; [reflexivity|]. repeat split.
  - intros t t' H. destruct (paso_agrega t t' H) as [r [Hr _]]. now exists r.
  - induction 1 as [|t t' _ IH Hp].
    + constructor.
    + destruct (paso_agrega t t' Hp) as [r [-> Hr]].
      apply Forall_app. split; [assumption|]. now constructor.
Qed.

Lemma guardar_datos_campos_derivados_witness : Forall derivada df_tres.
Proof.
  apply guardar_datos_campos_derivados.
  unfold df_tres.
  repeat (eapply tras_paso; [|apply paso_guardar]).
  apply tabla_creada.
Defined.

(** ** The simulation *)

(** C8: for an investment of at least 0 and a term from 1 to 10 the
    simulation shows annual savings = investment * 0.2, ROI = the term,
    the reduction band "15-25%" and the fixed full-compliance mark; for
    1000000 over 5 years with solar energy the savings are 200000, the
    ROI 5 and the band "15-25%". *)
Theorem simular_campos :
  (forall (inversion plazo : Z) (tipo : string),
      (0 <= inversion)%Z -> (1 <= plazo <= 10)%Z ->
      campo "Ahorro Anual" (simular inversion plazo tipo)
      = Some [ Texto "S/. ";
               Hueco (VNum (Flotante
                              (float_of_Z inversion * cero_punto_dos)%float))
                 ",.0f" ] /\
      campo "ROI" (simular inversion plazo tipo)
      = Some [Hueco (VNum (Entero plazo)) ""; Texto " años"] /\
      campo "Reducción CO₂" (simular inversion plazo tipo)
      = Some [Texto "15-25%"] /\
      campo "Cumplimiento Legal" (simular inversion plazo tipo)
      = Some [Texto "✅ 100%"]) /\
  (campo "Ahorro Anual" (simular 1000000 5 "Energía Solar")
   = Some [Texto "S/. "; Hueco (VNum (Flotante 200000%float)) ",.0f"] /\
   campo "ROI" (simular 1000000 5 "Energía Solar")
   = Some [Hueco (VNum (Entero 5)) ""; Texto " años"] /\
   campo "Reducción CO₂" (simular 1000000 5 "Energía Solar")
   = Some [Texto "15-25%"]).
Proof.
  split.
  - intros inversion plazo tipo _ _. repeat split.
  - repeat split.
Qed.

Lemma simular_campos_witness :
  campo "Ahorro Anual" (simular 1000000 5 "Energía Solar")
  = Some [ Texto "S/. ";
           Hueco (VNum (Flotante
                          (float_of_Z 1000000 * cero_punto_dos)%float))
             ",.0f" ].
Proof.
  apply (proj1 simular_campos 1000000%Z 5%Z "Energía Solar"); lia.
Defined.

(** C10: two simulations with the same investment and term and
    different technologies give the same dict: no field depends on the
    technology. *)
Theorem simular_ignora_tecnologia
    (inversion plazo : Z) (tipo1 tipo2 : string) :
  simular inversion plazo tipo1 = simular inversion plazo tipo2.
Proof. reflexivity. Qed.


(** ** Further facts and worked examples *)

(** Whenever the water analysis is produced, the value shown as the most
    efficient process is the method [eficiencia.idxmax], never a label. *)
Lemma analisis_agua_metodo (df : DataFrame) (a : valor) :
  analisis_agua df = Ok a ->
  exists (s : Series) (t : fstring),
    a = VPlantilla t /\
    eficiencia_hidrica df = Ok s /\
    nth_error (huecos t) 0 = Some (VMetodo "idxmax" s).
Proof.
  unfold analisis_agua.
  destruct (eficiencia_hidrica df) as [s|e]; cbn [bind]; [|discriminate].
  rewrite norma_agua. cbn [bind].
  destruct (tasa_diaria_ok agua_m3 df) as [x ->]. cbn [bind].
  intros H. injection H as <-.
  exists s. eexists. repeat split.
Qed.

(** On a table with rows the emissions analysis names a process that has
    a row. *)
Lemma idxmax_en_serie (s : Series) (p : proceso) :
  Pandas.idxmax s = Ok p -> In p (map fst s).
Proof.
  unfold Pandas.idxmax.
  destruct (filter Pandas.no_nan s) as [|e s'] eqn:E; [discriminate|].
  intros H. injection H as <-.
  assert (Hsub : forall e', In e' (e :: s') -> In e' s).
  { intros e' He'. rewrite <- E in He'. now apply filter_In in He'. }
  clear E. revert e Hsub. induction s' as [|e'' s' IH]; intros e Hsub; cbn.
  - apply in_map, Hsub. now left.
  - destruct (snd e <? snd e'')%float; apply IH; intros e' [<-|He'];
      apply Hsub; cbn; auto.
Qed.

Example lower_mayusculas : lower "Consumo de AGUA" = "consumo de agua".
Proof. reflexivity. Qed.

(** The ranking of the three sample captures: 60/50, then 50/100 and
    5/10 in their original order. *)
Example ranking_de_tres :
  eficiencia_hidrica df_tres
  = Ok [ (Procesamiento, (60 / 50)%float);
         (Extraccion, (50 / 100)%float);
         (Transporte, (5 / 10)%float) ].
Proof. vm_compute. reflexivity. Qed.

(** 6000 m3 of water in the month are 200 m3 a day. *)
Example agua_diaria_6000 :
  tasa_diaria agua_m3 (guardar_datos (captura Extraccion 6000 0 0 10) [])
  = Ok (Flotante 200%float).
Proof. vm_compute. reflexivity. Qed.

(** 1600 ton of CO2 in the month are above the daily limit. *)
Example co2_1600_incumple :
  cumplimiento_co2 (guardar_datos (captura Extraccion 0 0 1600 10) [])
  = Ok "❌".
Proof. vm_compute. reflexivity. Qed.

(** With no rows each branch that computes something raises, and the
    default branch does not. *)
Example consulta_sin_filas :
  consulta_ia "agua" [] = Raise TypeError /\
  consulta_ia "emisiones" [] = Raise ValueError /\
  exists t : fstring, consulta_ia "multas" [] = Ok t.
Proof.
  split; [reflexivity|]. split; [reflexivity|].
  eexists. vm_compute. reflexivity.
Qed.


(** * Beyond the water ranking: order, signs and the remaining branches *)


(** ** The table under repeated captures *)

Section Tabla.

Local Open Scope Z_scope.

Lemma max_desde (a : Z) (l : list Z) :
  0 <= a -> fold_right Z.max a l = Z.max (fold_right Z.max 0 l) a.
Proof.
  intros Ha. induction l as [|x l IH]; cbn; [lia|]. rewrite IH. lia.
Qed.

Lemma max_de_consecutivos (n : nat) :
  fold_right Z.max 0 (map Z.of_nat (seq 1 n)) = Z.of_nat n.
Proof.
  induction n as [|n IH]; [reflexivity|].
  rewrite seq_S, map_app, fold_right_app. cbn [map fold_right].
  rewrite max_desde by lia. rewrite IH. lia.
Qed.

Lemma guardar_datos_alcanzable (f : formulario) (t : list fila) :
  alcanzable t -> alcanzable (guardar_datos f t).
Proof. intros H. eapply tras_paso; [exact H | apply paso_guardar]. Qed.

Lemma guardar_todos_alcanzable (fs : list formulario) (t : list fila) :
  alcanzable t -> alcanzable (guardar_todos fs t).
Proof.
  unfold guardar_todos.
  revert t. induction fs as [|f fs IH]; intros t H; cbn [fold_left];
    [exact H|].
  apply IH. now apply guardar_datos_alcanzable.
Qed.

Lemma fila_de_no_negativa (k : Z) (f : formulario) :
  formulario_valido f -> fila_no_negativa (fila_de k f).
Proof.
  intros [Ha [He [Hc Hp]]]. unfold fila_no_negativa, fila_de. cbn.
  repeat split; try assumption; try reflexivity;
    (eapply mul_no_negativo; [vm_compute; reflexivity | assumption]).
Qed.

End Tabla.

(** X1: in every table the program can reach, the keys are 1, 2, ..., n
    in row order; so no key repeats and the next capture gets n + 1. *)
Theorem ids_consecutivos (t : list fila) :
  alcanzable t ->
  map id t = map Z.of_nat (seq 1 (List.length t)) /\
  NoDup (map id t) /\
  siguiente_id t = Z.of_nat (S (List.length t)).
Proof.
  intros H.
  assert (E : map id t = map Z.of_nat (seq 1 (List.length t))).
  { induction H as [|t t' _ IH Hp]; [reflexivity|].
    destruct Hp as [f t]. unfold guardar_datos.
    rewrite map_app, length_app, Nat.add_comm. cbn [List.length Nat.add].
    rewrite seq_S, map_app, <- IH. cbn [map id fila_de].
    unfold siguiente_id. rewrite IH, max_de_consecutivos.
    do 2 f_equal. lia. }
  split; [exact E|]. split.
  - rewrite E. apply Finite.Injective_map_NoDup; [|apply seq_NoDup].
    intros a b Hab. lia.
  - unfold siguiente_id. rewrite E, max_de_consecutivos. lia.
Qed.

Lemma ids_consecutivos_witness : map id df_tres = [1; 2; 3]%Z.
Proof.
  apply (proj1 (ids_consecutivos df_tres
                  (guardar_todos_alcanzable
                     [ captura Extraccion 100 0 0 50;
                       captura Procesamiento 50 0 0 60;
                       captura Transporte 10 0 0 5 ] [] tabla_creada))).
Defined.

(** X2: submitting forms one after the other appends exactly one row per
    form, in submission order and built from that form, after the rows
    the table already had, which stay in place. *)
Theorem guardar_todos_agrega (fs : list formulario) (t : list fila) :
  exists nuevas : list fila,
    guardar_todos fs t = (t ++ nuevas)%list /\
    Forall2 (fun f r => exists k : Z, r = fila_de k f) fs nuevas /\
    List.length (guardar_todos fs t) = (List.length t + List.length fs)%nat.
Proof.
  unfold guardar_todos.
  revert t. induction fs as [|f fs IH]; intros t; cbn [fold_left].
  - exists []. rewrite app_nil_r. repeat split; [constructor | cbn; lia].
  - destruct (IH (guardar_datos f t)) as [nuevas [E [HF HL]]].
    exists (fila_de (siguiente_id t) f :: nuevas).
    split; [|split].
    + rewrite E. unfold guardar_datos. now rewrite <- app_assoc.
    + constructor; [now exists (siguiente_id t) | assumption].
    + rewrite HL. unfold guardar_datos. rewrite length_app. cbn. lia.
Qed.

(** X3: if every submitted form holds numbers that are not below 0, as
    the widgets' [min_value=0.0] enforces, and the rows already stored
    are not negative, then every numeric column of every row of the
    table stays a number that is not below 0: revenue, cost, investment
    and waste included. *)
Theorem tabla_no_negativa (fs : list formulario) (t : list fila) :
  Forall formulario_valido fs ->
  Forall fila_no_negativa t ->
  Forall fila_no_negativa (guardar_todos fs t).
Proof.
  unfold guardar_todos.
  revert t. induction fs as [|f fs IH]; intros t Hfs Ht; cbn [fold_left].
  - exact Ht.
  - inversion Hfs; subst. apply IH; [assumption|].
    unfold guardar_datos. apply Forall_app. split; [assumption|].
    constructor; [|constructor]. now apply fila_de_no_negativa.
Qed.

Lemma tabla_no_negativa_witness : Forall fila_no_negativa df_tres.
Proof.
  apply (tabla_no_negativa
           [ captura Extraccion 100 0 0 50;
             captura Procesamiento 50 0 0 60;
             captura Transporte 10 0 0 5 ] []).
  - repeat constructor.
  - constructor.
Defined.

(** ** The branches of the answer *)

Section Ramas.

Import Pandas.

Lemma eficiencia_hidrica_falla (df : DataFrame) (e : excepcion) :
  eficiencia_hidrica df = Raise e <-> df = [] /\ e = TypeError.
Proof.
  split.
  - destruct df as [|r df'].
    + cbn. intros H. injection H as <-. now split.
    + rewrite eficiencia_hidrica_ok by discriminate. discriminate.
  - intros [-> ->]. reflexivity.
Qed.

(** What the water analysis interpolates once the ranking exists. *)
Lemma huecos_analisis_agua (df : DataFrame) (s : Series) :
  eficiencia_hidrica df = Ok s ->
  exists (t : fstring) (x : float),
    analisis_agua df = Ok (VPlantilla t) /\
    tasa_diaria agua_m3 df = Ok (Flotante x) /\
    huecos t =
      [ VMetodo "idxmax" s;
        VNum (Flotante (max s));
        VStr "Límite 5000 m3/día (Ley de Recursos Hídricos)";
        VNum (Flotante x) ].
Proof.
  intros Hs. unfold analisis_agua. rewrite Hs. cbn [bind].
  rewrite norma_agua. cbn [bind].
  destruct (tasa_diaria_ok agua_m3 df) as [x Hx]. rewrite Hx. cbn [bind].
  eexists. exists x. repeat split.
Qed.

Lemma analisis_agua_falla (df : DataFrame) (e : excepcion) :
  analisis_agua df = Raise e <-> df = [] /\ e = TypeError.
Proof.
  rewrite <- eficiencia_hidrica_falla.
  destruct (eficiencia_hidrica df) as [s|e'] eqn:Hs.
  - destruct (huecos_analisis_agua df s Hs) as [t [x [Ht _]]].
    rewrite Ht. split; discriminate.
  - unfold analisis_agua. rewrite Hs. cbn [bind].
    split; intros H; injection H as <-; reflexivity.
Qed.

Lemma cumplimiento_co2_valor (df : DataFrame) (x : float) :
  tasa_diaria co2_ton df = Ok (Flotante x) ->
  cumplimiento_co2 df = Ok (if (x <? 50)%float then "✅" else "❌").
Proof.
  intros Hx. unfold cumplimiento_co2. rewrite Hx. cbn [bind lt a_float].
  rewrite float_of_Z_50. reflexivity.
Qed.

(** What the emissions analysis interpolates once a key process exists. *)
Lemma huecos_analisis_emisiones (df : DataFrame) (p : proceso) :
  idxmax (groupby_sum co2_ton df) = Ok p ->
  exists (t : fstring) (c : string),
    analisis_emisiones df = Ok (VPlantilla t) /\
    cumplimiento_co2 df = Ok c /\
    huecos t =
      [ VNum (suma co2_ton df);
        VStr (nombre p);
        VStr c;
        VStr "50 ton/día (DS N° 003-2014-MINAM)" ].
Proof.
  intros Hp. unfold analisis_emisiones. rewrite Hp. cbn [bind].
  destruct (tasa_diaria_ok co2_ton df) as [x Hx].
  rewrite (cumplimiento_co2_valor df x Hx). cbn [bind].
  rewrite norma_limite. cbn [bind].
  eexists. eexists. repeat split.
Qed.

Lemma idxmax_falla (s : Series) (e : excepcion) :
  idxmax s = Raise e <-> filter no_nan s = [] /\ e = ValueError.
Proof.
  unfold idxmax. destruct (filter no_nan s) as [|e' s'].
  - split; [intros H; injection H as <-; now split | now intros [_ ->]].
  - split; [discriminate | intros [H _]; discriminate].
Qed.

Lemma analisis_emisiones_falla (df : DataFrame) (e : excepcion) :
  analisis_emisiones df = Raise e
  <-> filter no_nan (groupby_sum co2_ton df) = [] /\ e = ValueError.
Proof.
  rewrite <- idxmax_falla.
  destruct (idxmax (groupby_sum co2_ton df)) as [p|e'] eqn:Hp.
  - destruct (huecos_analisis_emisiones df p Hp) as [t [c [Ht _]]].
    rewrite Ht. split; discriminate.
  - unfold analisis_emisiones. rewrite Hp. cbn [bind].
    split; intros H; injection H as <-; reflexivity.
Qed.

Lemma respuesta_ok (pregunta : string) (a : valor) :
  exists t : fstring, respuesta pregunta a = Ok t.
Proof.
  destruct (huecos_respuesta pregunta a) as [t [Ht _]]. now exists t.
Qed.

Lemma grupo_sub (p : proceso) (df : DataFrame) (P : fila -> Prop) :
  Forall P df -> Forall P (grupo p df).
Proof.
  intros H. apply Forall_forall. intros r Hr.
  apply filter_In in Hr as [Hr _].
  now apply (proj1 (Forall_forall P df) H).
Qed.

Lemma groupby_sum_no_vacia (c : columna) (df : DataFrame) :
  df <> [] -> groupby_sum c df <> [].
Proof.
  destruct df as [|r df']; [congruence|]. intros _ E.
  assert (H : In (proceso_de r, grupo (proceso_de r) (r :: df'))
                (groupby (r :: df')))
    by (apply grupo_en_groupby; now left).
  unfold groupby_sum in E. apply map_eq_nil in E. rewrite E in H.
  destruct H.
Qed.

End Ramas.

(** ** The answer as a whole *)

(** X4: whatever branch is taken, an answer that is produced
    interpolates exactly five values: the question as it was typed, the
    analysis, and the three fixed legal texts. *)
Theorem consulta_ia_forma (pregunta : string) (df : DataFrame) (t : fstring) :
  consulta_ia pregunta df = Ok t ->
  exists a : valor,
    huecos t =
      [ VStr pregunta; a; VStr "Ley N° 28611";
        VStr "50 ton/día (DS N° 003-2014-MINAM)";
        VStr "Hasta 10,000 UIT por incumplimiento" ].
Proof.
  unfold consulta_ia.
  destruct (if contiene "agua" (lower pregunta) then analisis_agua df
            else if contiene "emision" (lower pregunta)
                 then analisis_emisiones df else Ok (VStr "")) as [a|e];
    cbn [bind]; [|discriminate].
  destruct (huecos_respuesta pregunta a) as [t' [Ht' Hh]].
  rewrite Ht'. intros H. injection H as <-. now exists a.
Qed.

Lemma consulta_ia_forma_witness :
  exists (t : fstring) (a : valor),
    consulta_ia "emisiones" df_tres = Ok t /\
    huecos t =
      [ VStr "emisiones"; a; VStr "Ley N° 28611";
        VStr "50 ton/día (DS N° 003-2014-MINAM)";
        VStr "Hasta 10,000 UIT por incumplimiento" ].
Proof.
  destruct (consulta_ia "emisiones" df_tres) as [t|e] eqn:E;
    [|vm_compute in E; discriminate].
  destruct (consulta_ia_forma "emisiones" df_tres t E) as [a Ha].
  now exists t, a.
Defined.

(** X5: the letter case of the question does not matter.  Two questions
    with the same lower-case form get the same analysis and the same
    legal texts, or fail with the same exception. *)
Theorem consulta_ia_sin_mayusculas (q1 q2 : string) (df : DataFrame) :
  lower q1 = lower q2 ->
  match consulta_ia q1 df, consulta_ia q2 df with
  | Ok t1, Ok t2 => tl (huecos t1) = tl (huecos t2)
  | Raise e1, Raise e2 => e1 = e2
  | _, _ => False
  end.
Proof.
  intros H. unfold consulta_ia. rewrite H.
  destruct (if contiene "agua" (lower q2) then analisis_agua df
            else if contiene "emision" (lower q2)
                 then analisis_emisiones df else Ok (VStr "")) as [a|e];
    cbn [bind]; [|reflexivity].
  destruct (huecos_respuesta q1 a) as [t1 [-> H1]].
  destruct (huecos_respuesta q2 a) as [t2 [-> H2]].
  rewrite H1, H2. reflexivity.
Qed.

Lemma consulta_ia_sin_mayusculas_witness :
  match consulta_ia "Consumo de AGUA" df_tres,
        consulta_ia "consumo de agua" df_tres with
  | Ok t1, Ok t2 => tl (huecos t1) = tl (huecos t2)
  | Raise e1, Raise e2 => e1 = e2
  | _, _ => False
  end.
Proof.
  apply (consulta_ia_sin_mayusculas "Consumo de AGUA" "consumo de agua").
  reflexivity.
Defined.

(** Where an exception of [consulta_ia] comes from: the ranking of the
    water branch or the [idxmax] of the emissions branch. *)
Lemma consulta_ia_falla
    (pregunta : string) (df : DataFrame) (e : excepcion) :
  consulta_ia pregunta df = Raise e <->
  (subcadena "agua" (lower pregunta) /\ df = [] /\ e = TypeError) \/
  (~ subcadena "agua" (lower pregunta) /\
   subcadena "emision" (lower pregunta) /\
   filter Pandas.no_nan (Pandas.groupby_sum co2_ton df) = [] /\
   e = ValueError).
Proof.
  rewrite <- contiene_false, <- !contiene_spec.
  unfold consulta_ia.
  destruct (contiene "agua" (lower pregunta)).
  - destruct (analisis_agua df) as [a|e'] eqn:Ha; cbn [bind].
    + destruct (respuesta_ok pregunta a) as [t ->].
      split; [discriminate|].
      intros [[_ H]|[H _]]; [|discriminate].
      apply analisis_agua_falla in H. congruence.
    + apply analisis_agua_falla in Ha as [-> ->].
      split.
      * intros H. injection H as <-. left. repeat split.
      * intros [[_ [_ ->]]|[H _]]; [reflexivity|discriminate].
  - destruct (contiene "emision" (lower pregunta)).
    + destruct (analisis_emisiones df) as [a|e'] eqn:Ha; cbn [bind].
      * destruct (respuesta_ok pregunta a) as [t ->].
        split; [discriminate|].
        intros [[H _]|[_ [_ H]]]; [discriminate|].
        apply analisis_emisiones_falla in H. congruence.
      * apply analisis_emisiones_falla in Ha as [Hf ->].
        split.
        -- intros H. injection H as <-. right. repeat split; assumption.
        -- intros [[H _]|[_ [_ [_ ->]]]]; [discriminate|reflexivity].
    + cbn [bind]. destruct (respuesta_ok pregunta (VStr "")) as [t ->].
      split; [discriminate|].
      intros [[H _]|[_ [H _]]]; discriminate.
Qed.

(** X7: [consulta_ia] raises in two situations only.  A question with
    "agua" raises [TypeError] when the table has no row.  A question
    with "emision" and no "agua" raises [ValueError] when no process has
    a CO2 total that is a number, which includes the table without rows.
    It never raises [KeyError] or [ZeroDivisionError], and a question
    with neither word never raises. *)
Theorem consulta_ia_excepciones
    (pregunta : string) (df : DataFrame) (e : excepcion) :
  consulta_ia pregunta df = Raise e <->
  (subcadena "agua" (lower pregunta) /\ df = [] /\ e = TypeError) \/
  (~ subcadena "agua" (lower pregunta) /\
   subcadena "emision" (lower pregunta) /\
   filter Pandas.no_nan (Pandas.groupby_sum co2_ton df) = [] /\
   e = ValueError).
Proof. apply consulta_ia_falla. Qed.

Lemma consulta_ia_excepciones_witness :
  consulta_ia "Uso de agua" [] = Raise TypeError /\
  consulta_ia "Emisiones" [] = Raise ValueError /\
  consulta_ia "Emisiones" df_desborde = Raise ValueError.
Proof.
  split; [|split].
  - apply (consulta_ia_excepciones "Uso de agua" [] TypeError).
    left. repeat split. now exists "uso de ", "".
  - apply (consulta_ia_excepciones "Emisiones" [] ValueError).
    right. repeat split.
    + apply contiene_false. reflexivity.
    + now exists "", "es".
  - apply (consulta_ia_excepciones "Emisiones" df_desborde ValueError).
    right. repeat split.
    + apply contiene_false. reflexivity.
    + now exists "", "es".
Defined.

(** ** The table without rows *)

(** C3 as stated fails: it names one error with which the mean and the
    daily-rate computations fail.  On the empty collection the three
    operations that hold a mean or a daily rate raise three different
    exceptions, so there is no one error that they all fail with. *)
Lemma tabla_vacia_sin_error_comun :
  ~ (exists e : excepcion,
       consulta_ia "agua" [] = Raise e /\
       consulta_ia "emisiones" [] = Raise e /\
       generar_reporte "mayo 2024" [] = Raise e).
Proof.
  intros [e [Ha [He _]]].
  vm_compute in Ha. vm_compute in He. congruence.
Qed.

(** C3, amended: on the empty collection no mean and no daily rate is
    computed or returned.  Every operation that holds one fails at an
    earlier expression: the water answer with [TypeError], the emissions
    answer with [ValueError] and the report with [ZeroDivisionError]; so
    none of them returns 0, NaN or any other number. *)
Theorem tabla_vacia_falla_antes :
  (forall pregunta : string,
      subcadena "agua" (lower pregunta) ->
      consulta_ia pregunta [] = Raise TypeError) /\
  (forall pregunta : string,
      ~ subcadena "agua" (lower pregunta) ->
      subcadena "emision" (lower pregunta) ->
      consulta_ia pregunta [] = Raise ValueError) /\
  (forall ahora : string,
      generar_reporte ahora [] = Raise ZeroDivisionError).
Proof.
  split; [|split].
  - intros pregunta Ha. apply consulta_ia_falla. left. now repeat split.
  - intros pregunta Ha He. apply consulta_ia_falla. right. now repeat split.
  - intros ahora. reflexivity.
Qed.

Lemma tabla_vacia_falla_antes_witness :
  consulta_ia "Consumo de agua" [] = Raise TypeError /\
  consulta_ia "Emisiones del mes" [] = Raise ValueError.
Proof.
  split.
  - apply (proj1 tabla_vacia_falla_antes "Consumo de agua").
    now exists "consumo de ", "".
  - apply (proj1 (proj2 tabla_vacia_falla_antes) "Emisiones del mes").
    + apply contiene_false. reflexivity.
    + now exists "", "es del mes".
Defined.

(** ** The verdicts as they are shown *)

(** C4, amended: both verdicts of the program compare strictly.
    Whenever the emissions analysis is produced, the verdict it shows is
    the passing one exactly when the daily CO2 rate is below 50; and the
    report of a table with rows shows the passing CO2 verdict exactly
    when the CO2 mean is below 1.5.  An observed value equal to the
    limit does not pass. *)
Theorem cumplimiento_estricto (ahora : string) (df : DataFrame) :
  (forall t : fstring,
      analisis_emisiones df = Ok (VPlantilla t) ->
      exists x : float,
        tasa_diaria co2_ton df = Ok (Flotante x) /\
        nth_error (huecos t) 2
        = Some (VStr (if (x <? 50)%float then "✅" else "❌")) /\
        ((x =? 50)%float = true ->
         nth_error (huecos t) 2 = Some (VStr "❌"))) /\
  (df <> [] ->
   exists tr : fstring,
     generar_reporte ahora df = Ok tr /\
     nth_error (huecos tr) 5
     = Some (VStr (if (Pandas.mean co2_ton df <? 1.5)%float
                   then "Dentro" else "Fuera")) /\
     ((Pandas.mean co2_ton df =? 1.5)%float = true ->
      nth_error (huecos tr) 5 = Some (VStr "Fuera"))).
Proof.
  split.
  - intros t Ht.
    destruct (Pandas.idxmax (Pandas.groupby_sum co2_ton df)) as [p|e] eqn:Hp.
    + destruct (huecos_analisis_emisiones df p Hp) as [t' [c [Ht' [Hc Hh]]]].
      rewrite Ht' in Ht. injection Ht as <-.
      destruct (tasa_diaria_ok co2_ton df) as [x Hx].
      rewrite (cumplimiento_co2_valor df x Hx) in Hc. injection Hc as <-.
      exists x. split; [exact Hx|].
      rewrite Hh. cbn [nth_error]. split; [reflexivity|].
      intros Heq. now rewrite (eqb_no_ltb _ _ Heq).
    + apply idxmax_falla in Hp as [Hp ->].
      assert (Hf : analisis_emisiones df = Raise ValueError)
        by (apply analisis_emisiones_falla; now split).
      congruence.
  - intros Hne.
    destruct (huecos_reporte ahora df Hne) as [tr [Htr Hh]].
    exists tr. split; [exact Htr|].
    rewrite Hh. cbn [nth_error]. unfold niveles_co2. cbn [lt a_float].
    split; [reflexivity|].
    intros Heq. now rewrite (eqb_no_ltb _ _ Heq).
Qed.

Lemma cumplimiento_estricto_witness :
  exists t : fstring,
    analisis_emisiones df_ocho = Ok (VPlantilla t) /\
    nth_error (huecos t) 2 = Some (VStr "❌").
Proof.
  destruct (huecos_analisis_emisiones df_ocho Procesamiento)
    as [t [c [Ht _]]]; [vm_compute; reflexivity|].
  exists t. split; [exact Ht|].
  destruct (proj1 (cumplimiento_estricto "mayo 2024" df_ocho) t Ht)
    as [x [Hx [_ Hb]]].
  apply Hb.
  assert (E : tasa_diaria co2_ton df_ocho = Ok (Flotante 50%float))
    by (vm_compute; reflexivity).
  rewrite E in Hx. injection Hx as <-. reflexivity.
Defined.

(** X8: generating the report raises exactly when the table has no row,
    and what it raises then is [ZeroDivisionError]. *)
Theorem generar_reporte_excepciones
    (ahora : string) (df : DataFrame) (e : excepcion) :
  generar_reporte ahora df = Raise e <-> df = [] /\ e = ZeroDivisionError.
Proof.
  destruct df as [|r df'].
  - cbn. split.
    + intros H. injection H as <-. now split.
    + intros [_ ->]. reflexivity.
  - destruct (huecos_reporte ahora (r :: df')) as [t [Ht _]];
      [discriminate|].
    rewrite Ht. split; [discriminate | intros [H _]; discriminate].
Qed.

Lemma generar_reporte_excepciones_witness :
  generar_reporte "mayo 2024" [] = Raise ZeroDivisionError.
Proof.
  apply (generar_reporte_excepciones "mayo 2024" [] ZeroDivisionError).
  now split.
Defined.


(** X9: whenever the emissions analysis is produced, the process it
    names is the first one with the largest CO2 total among the
    processes whose total is a number, taken in key order: every such
    process before it has a smaller total and none after it has a
    greater one.  The totals are the sums that [groupby] computes. *)
Theorem proceso_clave_maximo (df : DataFrame) (t : fstring) :
  analisis_emisiones df = Ok (VPlantilla t) ->
  exists (p : proceso) (v : float) (pre post : Series),
    filter Pandas.no_nan (Pandas.groupby_sum co2_ton df)
    = (pre ++ (p, v) :: post)%list /\
    Forall (fun x => (snd x <? v)%float = true) pre /\
    Forall (fun x => (v <? snd x)%float = false) post /\
    grupo p df <> [] /\
    v = Pandas.group_sum (map co2_ton (grupo p df)) /\
    nth_error (huecos t) 1 = Some (VStr (nombre p)).
Proof.
  intros Ht.
  destruct (Pandas.idxmax (Pandas.groupby_sum co2_ton df)) as [p|e] eqn:Hp.
  2:{ apply idxmax_falla in Hp as [Hp ->].
      assert (Hf : analisis_emisiones df = Raise ValueError)
        by (apply analisis_emisiones_falla; now split).
      congruence. }
  destruct (huecos_analisis_emisiones df p Hp) as [t' [c [Ht' [_ Hh]]]].
  rewrite Ht' in Ht. injection Ht as <-.
  unfold Pandas.idxmax in Hp.
  pose proof (filtro_no_nan (Pandas.groupby_sum co2_ton df)) as Hnan.
  assert (Hsub : forall x,
             In x (filter Pandas.no_nan (Pandas.groupby_sum co2_ton df)) ->
             In x (Pandas.groupby_sum co2_ton df))
    by (intros x Hx; now apply filter_In in Hx).
  destruct (filter Pandas.no_nan (Pandas.groupby_sum co2_ton df))
    as [|e s'] eqn:Es; [discriminate|].
  injection Hp as Hp.
  destruct (argmax_primero s' e [] []) as [pre [post [E [Hpre Hpost]]]];
    [constructor | constructor | now inversion Hnan |].
  cbn [app] in E.
  destruct (Pandas.argmax e s') as [q v] eqn:Ea.
  cbn [fst snd] in Hp, Hpre, Hpost. subst q.
  exists p, v, pre, post.
  assert (Hin : In (p, v) (Pandas.groupby_sum co2_ton df)).
  { apply Hsub. rewrite E. apply in_or_app. right. now left. }
  unfold Pandas.groupby_sum in Hin.
  apply in_map_iff in Hin as [[q g] [Hq Hg]].
  cbn [fst snd] in Hq. injection Hq as -> Hv.
  apply groupby_in in Hg as [-> Hg].
  repeat split; try assumption.
  - now symmetry.
  - rewrite Hh. reflexivity.
Qed.

Lemma proceso_clave_maximo_witness :
  exists (t : fstring) (p : proceso) (v : float) (pre post : Series),
    analisis_emisiones df_emisiones = Ok (VPlantilla t) /\
    filter Pandas.no_nan (Pandas.groupby_sum co2_ton df_emisiones)
    = (pre ++ (p, v) :: post)%list /\
    Forall (fun x => (snd x <? v)%float = true) pre /\
    Forall (fun x => (v <? snd x)%float = false) post /\
    grupo p df_emisiones <> [] /\
    v = Pandas.group_sum (map co2_ton (grupo p df_emisiones)) /\
    nth_error (huecos t) 1 = Some (VStr (nombre p)).
Proof.
  destruct (huecos_analisis_emisiones df_emisiones Procesamiento)
    as [t [c [Ht _]]]; [vm_compute; reflexivity|].
  destruct (proceso_clave_maximo df_emisiones t Ht)
    as [p [v [pre [post H]]]].
  exists t, p, v, pre, post. split; [exact Ht | exact H].
Defined.

(** X10: when the first entry of the ranking is a number, the ratio that
    the water analysis shows (the result of [eficiencia.max()]) is the
    ratio of that first entry. *)
Theorem razon_mostrada_es_la_primera
    (df : DataFrame) (e : proceso * float) (resto : Series) :
  eficiencia_hidrica df = Ok (e :: resto) ->
  PrimFloat.is_nan (snd e) = false ->
  exists t : fstring,
    analisis_agua df = Ok (VPlantilla t) /\
    nth_error (huecos t) 1 = Some (VNum (Flotante (snd e))).
Proof.
  intros Hs He.
  destruct (huecos_analisis_agua df _ Hs) as [t [x [Ht [_ Hh]]]].
  exists t. split; [exact Ht|]. rewrite Hh. cbn [nth_error].
  do 3 f_equal.
  destruct df as [|r df']; [discriminate|].
  rewrite eficiencia_hidrica_ok in Hs by discriminate.
  injection Hs as Hs. rewrite <- Hs.
  now apply (max_de_ordenada _ e resto).
Qed.

Lemma razon_mostrada_es_la_primera_witness :
  exists t : fstring,
    analisis_agua df_tres = Ok (VPlantilla t) /\
    nth_error (huecos t) 1 = Some (VNum (Flotante (60 / 50)%float)).
Proof.
  apply (razon_mostrada_es_la_primera df_tres
           (Procesamiento, (60 / 50)%float)
           [(Extraccion, (50 / 100)%float); (Transporte, (5 / 10)%float)]).
  - vm_compute. reflexivity.
  - reflexivity.
Defined.



(** X12: the daily CO2 verdict that is shown is monotone.  If the
    emissions analysis of one table shows the passing verdict, the
    analysis of any table whose daily CO2 rate is not above that of the
    first shows it as well. *)
Theorem cumplimiento_co2_monotono
    (df1 df2 : DataFrame) (t1 t2 : fstring) (x1 x2 : float) :
  analisis_emisiones df1 = Ok (VPlantilla t1) ->
  analisis_emisiones df2 = Ok (VPlantilla t2) ->
  tasa_diaria co2_ton df1 = Ok (Flotante x1) ->
  tasa_diaria co2_ton df2 = Ok (Flotante x2) ->
  (x2 <=? x1)%float = true ->
  nth_error (huecos t1) 2 = Some (VStr "✅") ->
  nth_error (huecos t2) 2 = Some (VStr "✅").
Proof.
  assert (Hv : forall df t x,
             analisis_emisiones df = Ok (VPlantilla t) ->
             tasa_diaria co2_ton df = Ok (Flotante x) ->
             nth_error (huecos t) 2
             = Some (VStr (if (x <? 50)%float then "✅" else "❌"))).
  { intros df t x Ht Hx.
    destruct (Pandas.idxmax (Pandas.groupby_sum co2_ton df))
      as [p|e] eqn:Hp.
    - destruct (huecos_analisis_emisiones df p Hp)
        as [t' [c [Ht' [Hc Hh]]]].
      rewrite Ht' in Ht. injection Ht as <-.
      rewrite (cumplimiento_co2_valor df x Hx) in Hc. injection Hc as <-.
      rewrite Hh. reflexivity.
    - apply idxmax_falla in Hp as [Hp ->].
      assert (Hf : analisis_emisiones df = Raise ValueError)
        by (apply analisis_emisiones_falla; now split).
      congruence. }
  intros Ht1 Ht2 H1 H2 Hle.
  rewrite (Hv df1 t1 x1 Ht1 H1), (Hv df2 t2 x2 Ht2 H2).
  destruct (x1 <? 50)%float eqn:E1; [|discriminate].
  intros _. now rewrite (leb_ltb_trans _ _ _ Hle E1).
Qed.

Lemma cumplimiento_co2_monotono_witness :
  exists t2 : fstring,
    analisis_emisiones df_tres = Ok (VPlantilla t2) /\
    nth_error (huecos t2) 2 = Some (VStr "✅").
Proof.
  destruct (huecos_analisis_emisiones df_emisiones Procesamiento)
    as [t1 [c1 [Ht1 [Hc1 Hh1]]]]; [vm_compute; reflexivity|].
  destruct (huecos_analisis_emisiones df_tres Extraccion)
    as [t2 [c2 [Ht2 _]]]; [vm_compute; reflexivity|].
  exists t2. split; [exact Ht2|].
  apply (cumplimiento_co2_monotono df_emisiones df_tres t1 t2
           (16 / 30)%float 0%float Ht1 Ht2);
    try (vm_compute; reflexivity).
  rewrite Hh1. cbn [nth_error]. do 2 f_equal.
  assert (E : cumplimiento_co2 df_emisiones = Ok "✅")
    by (vm_compute; reflexivity).
  rewrite E in Hc1. now injection Hc1 as <-.
Defined.

(** X13: the chat and the report agree.  On a table with rows the daily
    water use that the water analysis shows is the value the report
    shows, and both quote the same legal water limit. *)
Theorem agua_diaria_coherente (ahora : string) (df : DataFrame) :
  df <> [] ->
  exists (ta tr : fstring) (v : valor),
    analisis_agua df = Ok (VPlantilla ta) /\
    generar_reporte ahora df = Ok tr /\
    nth_error (huecos ta) 3 = Some v /\
    nth_error (huecos tr) 6 = Some v /\
    nth_error (huecos ta) 2 = nth_error (huecos tr) 7.
Proof.
  intros Hne.
  destruct (huecos_analisis_agua df _ (eficiencia_hidrica_ok df Hne))
    as [ta [x [Hta [Hx Hha]]]].
  destruct (huecos_reporte ahora df Hne) as [tr [Htr Hhr]].
  exists ta, tr, (VNum (Flotante x)).
  split; [exact Hta|]. split; [exact Htr|].
  rewrite Hha, Hhr. cbn [nth_error].
  split; [reflexivity|]. split; [|reflexivity].
  destruct df as [|r df']; [congruence|].
  cbn in Hx. injection Hx as <-. reflexivity.
Qed.

Lemma agua_diaria_coherente_witness :
  exists (ta tr : fstring) (v : valor),
    analisis_agua df_tres = Ok (VPlantilla ta) /\
    generar_reporte "mayo 2024" df_tres = Ok tr /\
    nth_error (huecos ta) 3 = Some v /\
    nth_error (huecos tr) 6 = Some v /\
    nth_error (huecos ta) 2 = nth_error (huecos tr) 7.
Proof.
  apply (agua_diaria_coherente "mayo 2024" df_tres). discriminate.
Defined.

(** X14: a capture shows up in the next ranking.  Right after a form is
    saved the water ranking is produced and has an entry for the process
    of that form. *)
Theorem captura_en_ranking (f : formulario) (t : list fila) :
  exists s : Series,
    eficiencia_hidrica (guardar_datos f t) = Ok s /\
    In (f_proceso f) (map fst s).
Proof.
  assert (Hne : guardar_datos f t <> []).
  { unfold guardar_datos. intros E. now apply app_eq_nil in E as [_ E]. }
  exists (Pandas.sort_values_desc (razones (guardar_datos f t))).
  split; [now apply eficiencia_hidrica_ok|].
  apply (Permutation_in _
           (Permutation_sym (Permutation_map fst (sort_values_desc_perm _)))).
  unfold razones. rewrite map_map. cbn [fst].
  apply in_map_iff.
  exists (f_proceso f, grupo (f_proceso f) (guardar_datos f t)).
  split; [reflexivity|].
  apply (grupo_en_groupby (guardar_datos f t) (fila_de (siguiente_id t) f)).
  unfold guardar_datos. apply in_or_app. right. now left.
Qed.

(** ** A table of captures without production *)

Section SinProduccion.

Local Open Scope float_scope.

Lemma cero_SF (y : float) :
  (y =? 0) = true <-> exists s : bool, Prim2SF y = S754_zero s.
Proof.
  split; [apply eqb_cero_SF|].
  intros [s Hs]. rewrite FloatAxioms.eqb_spec, Hs. reflexivity.
Qed.

Lemma add_ceros (x y : float) :
  (x =? 0) = true -> (y =? 0) = true -> (x + y =? 0) = true.
Proof.
  rewrite !cero_SF. intros [sx Hx] [sy Hy].
  rewrite FloatAxioms.add_spec, Hx, Hy.
  destruct sx, sy; cbn; eauto.
Qed.

Lemma mul_cero (x c : float) (m : positive) (e : Z) :
  Prim2SF c = S754_finite false m e ->
  (x =? 0) = true -> (x * c =? 0) = true.
Proof.
  intros Hc. rewrite !cero_SF. intros [sx Hx].
  rewrite FloatAxioms.mul_spec, Hx, Hc. cbn. eauto.
Qed.

Lemma suma_f_ceros (xs : list float) :
  Forall (fun x => (x =? 0) = true) xs -> (Pandas.suma_f xs =? 0) = true.
Proof.
  apply (suma_f_inv (fun x => (x =? 0) = true));
    [reflexivity | apply add_ceros].
Qed.

Lemma alcanzable_derivada (t : list fila) :
  alcanzable t -> Forall derivada t.
Proof.
  induction 1 as [|t t' _ IH Hp]; [constructor|].
  destruct (paso_agrega t t' Hp) as [r [-> Hr]].
  apply Forall_app. split; [assumption|]. now constructor.
Qed.

End SinProduccion.

(** X15: if the table has rows and every capture in it has production 0
    (the value the widget starts with), the report is produced and both
    of its ratios, water per ton and CO2 per sol of revenue, are values
    that are not finite: the revenue of each row is its production times
    5000, so the revenue total is 0 as well. *)
Theorem reporte_sin_produccion_alguna (ahora : string) (t : list fila) :
  alcanzable t ->
  t <> [] ->
  Forall (fun r => (produccion_ton r =? 0)%float = true) t ->
  exists (tr : fstring) (x y : float),
    generar_reporte ahora t = Ok tr /\
    nth_error (huecos tr) 2 = Some (VNum (Flotante x)) /\
    nth_error (huecos tr) 3 = Some (VNum (Flotante y)) /\
    PrimFloat.is_finite x = false /\
    PrimFloat.is_finite y = false.
Proof.
  intros Ha Hne Hp.
  destruct (huecos_reporte ahora t Hne) as [tr [Htr Hh]].
  exists tr. eexists. eexists.
  split; [exact Htr|]. rewrite Hh. cbn [nth_error].
  split; [reflexivity|]. split; [reflexivity|].
  split.
  - apply div_cero_no_finito, suma_f_ceros, Forall_map. exact Hp.
  - apply div_cero_no_finito, suma_f_ceros, Forall_map.
    pose proof (alcanzable_derivada t Ha) as Hd.
    apply Forall_forall. intros r Hr.
    destruct (proj1 (Forall_forall _ _) Hd r Hr) as [Hi _].
    rewrite Hi.
    eapply mul_cero; [vm_compute; reflexivity|].
    exact (proj1 (Forall_forall _ _) Hp r Hr).
Qed.

Lemma reporte_sin_produccion_alguna_witness :
  exists (tr : fstring) (x y : float),
    generar_reporte "mayo 2024" df_sin_produccion = Ok tr /\
    nth_error (huecos tr) 2 = Some (VNum (Flotante x)) /\
    nth_error (huecos tr) 3 = Some (VNum (Flotante y)) /\
    PrimFloat.is_finite x = false /\
    PrimFloat.is_finite y = false.
Proof.
  apply (reporte_sin_produccion_alguna "mayo 2024" df_sin_produccion).
  - apply (guardar_todos_alcanzable [captura Relaves 100 150 0 0] []).
    apply tabla_creada.
  - discriminate.
  - repeat constructor.
Defined.

(** The eight captures that total 1500 are at the limit: numpy's sum of
    the column is 1500.0, its daily rate 50.0 and the verdict the
    failing one, although adding the same values one after the other
    stays below 1500. *)
Example ocho_capturas_en_el_limite :
  Pandas.suma co2_ton df_ocho = Flotante 1500%float /\
  tasa_diaria co2_ton df_ocho = Ok (Flotante 50%float) /\
  cumplimiento_co2 df_ocho = Ok "❌" /\
  (fold_left PrimFloat.add (map co2_ton df_ocho) 0 <? 1500)%float = true.
Proof. repeat split; vm_compute; reflexivity. Qed.

(** The eight captures whose energy totals 800 have a mean of exactly
    100.0, which is not below 100: the trend shown is "empeorado". *)
Example ocho_capturas_con_media_100 :
  Pandas.mean energia_kwh df_energia_ocho = 100%float /\
  tendencia df_energia_ocho = "empeorado".
Proof. split; vm_compute; reflexivity. Qed.
